(** * The object-storage gateway of [server.js]

    A shallow embedding of the Express application of [src/server.js]: the
    six routes, the upload middleware configured at the top of the file, and
    the JavaScript primitives the handlers rely on ([parseInt], [||],
    template strings, [try]/[catch]).  The storage SDK is an interface; the
    handlers are written against it in a small state-and-exception monad that
    records every call made to the storage service.

    A string holds the UTF-8 bytes of a JavaScript string.  A request is
    one that matches a route.  The handlers are run on the request as the
    route sees it; [server] is the application around them: the body
    parser placed before the routes, the decoding of the path by the
    router, and what [res.send] makes of a conditional request or of one
    made with HEAD.  Left out, as they decide nothing in the routes: the
    console log, the headers added by the CORS middleware and the
    [Content-Type] header that [res.json] sets. *)

From Stdlib Require Import ZArith List String Ascii Bool Lia.
From Stdlib Require Import DecimalString DecimalZ DecimalPos DecimalN DecimalFacts.
From stdpp Require Import base gmap strings.

Import ListNotations.
Local Set Warnings "-register-all".
Local Open Scope string_scope.
Local Open Scope Z_scope.

(** ** JavaScript values used by the handlers *)

Module JS.

(** Numbers.  The only numbers the gateway computes with are the results of
    [parseInt] and the literal [3600]: integer-valued doubles, the two
    zeros, the infinities and [NaN]. *)
Inductive Number : Type :=
  | NaN
  | Infinity (negative : bool)
  | NegZero
  | Int (z : Z).

(** [ToBoolean] on numbers: [+0], [-0] and [NaN] are falsy. *)
Definition ToBoolean (n : Number) : bool :=
  match n with
  | NaN | NegZero => false
  | Int z => negb (z =? 0)
  | Infinity _ => true
  end.

(** [a || b] *)
Definition logical_or (a b : Number) : Number :=
  if ToBoolean a then a else b.

(** The double nearest to a positive integer [m] (round to nearest, ties to
    even); [None] stands for an overflow to infinity. *)
Definition round_to_double (m : Z) : option Z :=
  let bits := Z.log2 m + 1 in
  if bits <=? 53 then Some m
  else
    let sh := bits - 53 in
    let q := Z.shiftr m sh in
    let r := m - Z.shiftl q sh in
    let half := Z.shiftl 1 (sh - 1) in
    let q' := if r <? half then q
              else if half <? r then q + 1
              else if Z.even q then q else q + 1 in
    let v := Z.shiftl q' sh in
    if v <? 2 ^ 1024 then Some v else None.

(** Values found in [req.query]: absent, a string, or (with the bracket
    syntax of the query parser) an array or an object. *)
Inductive Value : Type :=
  | Undefined
  | Str (s : string)
  | Arr (elements : list Value)
  | Obj (fields : list (string * Value)).

Fixpoint join (sep : string) (l : list string) : string :=
  match l with
  | [] => ""
  | [s] => s
  | s :: rest => s +:+ sep +:+ join sep rest
  end.

(** The strings of an array, joined; nothing when an element could not be
    printed. *)
Fixpoint join_all (sep : string) (l : list (option string)) : option string :=
  match l with
  | [] => Some ""
  | [x] => x
  | x :: rest =>
      match x, join_all sep rest with
      | Some s, Some t => Some (s +:+ sep +:+ t)
      | _, _ => None
      end
  end.

(** Does the object have a member of its own under that name? *)
Definition has_own (name : string) (fields : list (string * Value)) : bool :=
  existsb (fun member => String.eqb (fst member) name) fields.

(** [ToString]; [None] when the conversion throws a [TypeError].  Arrays
    join their elements with commas (an undefined element prints as the
    empty string).  A plain object prints as [[object Object]], unless it
    has a [toString] member of its own: the member of a query object is
    never a function, and the conversion throws. *)
Fixpoint ToString (v : Value) : option string :=
  match v with
  | Undefined => Some "undefined"
  | Str s => Some s
  | Arr l =>
      join_all "," (map (fun e => match e with
                                  | Undefined => Some ""
                                  | _ => ToString e
                                  end) l)
  | Obj fields =>
      if has_own "toString" fields then None else Some "[object Object]"
  end.

Definition char_code (c : ascii) : Z := Z.of_N (N_of_ascii c).

(** White space and line terminators skipped by [parseInt].  The ones of
    one byte: TAB, LF, VT, FF, CR, SP. *)
Definition is_white_space (c : ascii) : bool :=
  let n := char_code c in
  ((9 <=? n) && (n <=? 13)) || (n =? 32).

(** The first bytes of the others. *)
Definition white_space_lead (c : ascii) : bool :=
  let n := char_code c in
  (n =? 194) || (n =? 225) || (n =? 226) || (n =? 227) || (n =? 239).

(** U+00A0. *)
Definition two_byte_space (c1 c2 : ascii) : bool :=
  (char_code c1 =? 194) && (char_code c2 =? 160).

(** U+1680, U+2000 to U+200A, U+2028, U+2029, U+202F, U+205F, U+3000,
    U+FEFF. *)
Definition three_byte_space (c1 c2 c3 : ascii) : bool :=
  let n1 := char_code c1 in
  let n2 := char_code c2 in
  let n3 := char_code c3 in
  ((n1 =? 225) && (n2 =? 154) && (n3 =? 128))
  || ((n1 =? 226) && (n2 =? 128)
      && (((128 <=? n3) && (n3 <=? 138))
          || (n3 =? 168) || (n3 =? 169) || (n3 =? 175)))
  || ((n1 =? 226) && (n2 =? 129) && (n3 =? 159))
  || ((n1 =? 227) && (n2 =? 128) && (n3 =? 128))
  || ((n1 =? 239) && (n2 =? 187) && (n3 =? 191)).

Fixpoint trim_start (s : string) : string :=
  match s with
  | EmptyString => EmptyString
  | String c1 r1 =>
      if is_white_space c1 then trim_start r1
      else if negb (white_space_lead c1) then s
      else
        match r1 with
        | EmptyString => s
        | String c2 r2 =>
            if two_byte_space c1 c2 then trim_start r2
            else
              match r2 with
              | EmptyString => s
              | String c3 r3 =>
                  if three_byte_space c1 c2 c3 then trim_start r3 else s
              end
        end
  end.

(** Value of a character as a digit in radix up to 36. *)
Definition digit_value (c : ascii) : option Z :=
  let n := char_code c in
  if (48 <=? n) && (n <=? 57) then Some (n - 48)
  else if (97 <=? n) && (n <=? 122) then Some (n - 87)
  else if (65 <=? n) && (n <=? 90) then Some (n - 55)
  else None.

(** The digits of the longest prefix of [s] made of radix-[R] digits. *)
Fixpoint digits_prefix (R : Z) (s : string) : list Z :=
  match s with
  | String c rest =>
      match digit_value c with
      | Some d => if d <? R then d :: digits_prefix R rest else []
      | None => []
      end
  | EmptyString => []
  end.

Definition mathInt (R : Z) (digits : list Z) : Z :=
  fold_left (fun acc d => acc * R + d) digits 0.

Definition strip_sign (s : string) : bool * string :=
  match s with
  | String "-" rest => (true, rest)
  | String "+" rest => (false, rest)
  | _ => (false, s)
  end.

Definition strip_hex_prefix (s : string) : Z * string :=
  match s with
  | String "0" (String "x" rest) => (16, rest)
  | String "0" (String "X" rest) => (16, rest)
  | _ => (10, s)
  end.

(** The integer read from a string, with no radix given: leading white
    space, a sign, a [0x] prefix, then the longest run of digits; [NaN]
    when there is none.  The value of the digits is taken exactly before it
    is rounded to a number. *)
Definition parse_integer (inputString : string) : Number :=
  let '(negative, S1) := strip_sign (trim_start inputString) in
  let '(R, S2) := strip_hex_prefix S1 in
  match digits_prefix R S2 with
  | [] => NaN
  | digits =>
      let m := mathInt R digits in
      if m =? 0 then (if negative then NegZero else Int 0)
      else match round_to_double m with
           | Some v => Int (if negative then - v else v)
           | None => Infinity negative
           end
  end.

(** [parseInt(v)]: the value is first converted to a string; [None] when
    that conversion throws. *)
Definition parseInt (v : Value) : option Number :=
  option_map parse_integer (ToString v).

(** Decimal rendering of an integer, as a template string prints an
    integer-valued number of magnitude below 10^21 (the value of
    [Date.now()] is one). *)
Definition decimal (z : Z) : string :=
  NilZero.string_of_int (Z.to_int z).

(** The double-quote character, as a string. *)
Definition dquote : string := String (ascii_of_N 34) EmptyString.

(** Errors thrown by library code: the fields the handlers read. *)
Record Error : Type := { code : option string; message : string }.

(** The [TypeError] of a conversion to a primitive value that fails. *)
Definition not_a_primitive : Error :=
  {| code := None; message := "Cannot convert object to primitive value" |}.

(** A byte array, given by its length and its contents. *)
Record Buffer : Type := { byteLength : N; byteAt : N -> Byte.byte }.

(** What [res.json] serialises.  [JDate] is the ISO-8601 string of a time
    value; a non-finite number is serialised as [null]. *)
Inductive json : Type :=
  | JNull
  | JBool (b : bool)
  | JNum (z : Z)
  | JStr (s : string)
  | JDate (time : Z)
  | JArr (items : list json)
  | JObj (members : list (string * json)).

Definition json_of_number (n : Number) : json :=
  match n with
  | Int z => JNum z
  | NegZero => JNum 0
  | NaN | Infinity _ => JNull
  end.

(** [String(n)] for the numbers of the model. *)
Definition number_to_string (n : Number) : string :=
  match n with
  | NaN => "NaN"
  | Infinity negative => if negative then "-Infinity" else "Infinity"
  | NegZero => "0"
  | Int z => decimal z
  end.

(** Property lookup in a serialised object (first member of that name). *)
Fixpoint member (name : string) (members : list (string * json)) : option json :=
  match members with
  | [] => None
  | (k, v) :: rest => if String.eqb k name then Some v else member name rest
  end.

Definition field (name : string) (j : json) : option json :=
  match j with
  | JObj members => member name members
  | _ => None
  end.

End JS.


(** ** The storage SDK *)

Module S3.

Module UploadParams.
Record t : Type :=
  { Bucket : string; Key : string; Body : JS.Buffer;
    ContentType : string; ACL : string }.
End UploadParams.

Module ListParams.
Record t : Type := { Bucket : string; MaxKeys : Z }.
End ListParams.

Module ObjectParams.
Record t : Type := { Bucket : string; Key : string }.
End ObjectParams.

Module UrlParams.
Record t : Type :=
  { Bucket : string; Key : string; Expires : JS.Number }.
End UrlParams.

(** Result of a managed upload. *)
Module SendData.
Record t : Type :=
  { Location : string; ETag : string; Bucket : string; Key : string }.
End SendData.

(** One entry of [Contents] in a listing. *)
Module Object.
Record t : Type :=
  { Key : string; LastModified : Z; ETag : string; Size : Z;
    StorageClass : string }.
End Object.

Module ListOutput.
Record t : Type := { Contents : list Object.t; IsTruncated : bool }.
End ListOutput.

Module HeadOutput.
Record t : Type :=
  { ContentLength : Z; ContentType : string; ETag : string;
    LastModified : Z }.
End HeadOutput.

(** Outcome of an awaited promise. *)
Inductive Settled (A : Type) : Type :=
  | Fulfilled (a : A)
  | Rejected (e : JS.Error).
Arguments Fulfilled {A} a.
Arguments Rejected {A} e.

(** A readable stream of an object body: it delivers the bytes, or emits
    an [error] event. *)
Inductive ReadStream : Type :=
  | Data (bytes : JS.Buffer)
  | Failing (e : JS.Error).

(** The calls the gateway can make. *)
Inductive Call : Type :=
  | upload_call (params : UploadParams.t)
  | listObjectsV2_call (params : ListParams.t)
  | headObject_call (params : ObjectParams.t)
  | getObject_call (params : ObjectParams.t)
  | getSignedUrl_call (operation : string) (params : UrlParams.t)
  | deleteObject_call (params : ObjectParams.t).

(** The client, over an arbitrary state [W] of the storage service.  Every
    operation may change that state and, except for the stream, settles
    with a result or with an error. *)
Class Client (W : Type) : Type :=
  { upload : UploadParams.t -> W -> Settled SendData.t * W;
    listObjectsV2 : ListParams.t -> W -> Settled ListOutput.t * W;
    headObject : ObjectParams.t -> W -> Settled HeadOutput.t * W;
    getObject_createReadStream : ObjectParams.t -> W -> ReadStream * W;
    getSignedUrlPromise : string -> UrlParams.t -> W -> Settled string * W;
    deleteObject : ObjectParams.t -> W -> Settled unit * W }.

End S3.

(** ** Handler computations: state, call trace, exceptions *)

Module Handler.

(** A call and the error it was rejected with, if any. *)
Record Event : Type := { call : S3.Call; failure : option JS.Error }.

Record State (W : Type) : Type := { world : W; trace : list Event }.
Arguments world {W} s.
Arguments trace {W} s.

Inductive Completion (A : Type) : Type :=
  | Normal (a : A)
  | Throw (e : JS.Error).
Arguments Normal {A} a.
Arguments Throw {A} e.

Definition M (W A : Type) : Type := State W -> Completion A * State W.

Definition ret {W A} (a : A) : M W A := fun st => (Normal a, st).

Definition bind {W A B} (m : M W A) (k : A -> M W B) : M W B :=
  fun st =>
    match m st with
    | (Normal a, st') => k a st'
    | (Throw e, st') => (Throw e, st')
    end.

Definition throw {W A} (e : JS.Error) : M W A := fun st => (Throw e, st).

(** A step that makes no storage call: it returns or throws. *)
Definition step {W A} (c : Completion A) : M W A := fun st => (c, st).

(** [try { body } catch (error) { handler error }] *)
Definition try_catch {W A} (body : M W A) (handler : JS.Error -> M W A) : M W A :=
  fun st =>
    match body st with
    | (Normal a, st') => (Normal a, st')
    | (Throw e, st') => handler e st'
    end.

(** [await] on a storage call: the call is recorded, a rejection throws. *)
Definition await {W A} (c : S3.Call) (op : W -> S3.Settled A * W) : M W A :=
  fun st =>
    let '(r, w') := op (world st) in
    match r with
    | S3.Fulfilled a =>
        (Normal a, {| world := w'; trace := trace st ++ [{| call := c; failure := None |}] |})
    | S3.Rejected e =>
        (Throw e, {| world := w'; trace := trace st ++ [{| call := c; failure := Some e |}] |})
    end.

(** A call that returns at once (the stream of [getObject]). *)
Definition invoke {W A} (c : S3.Call) (op : W -> A * W) : M W A :=
  fun st =>
    let '(a, w') := op (world st) in
    (Normal a, {| world := w'; trace := trace st ++ [{| call := c; failure := None |}] |}).

Definition start {W} (w : W) : State W := {| world := w; trace := [] |}.

(** A handler run on a fresh request against the service state [w]. *)
Definition run {W A} (m : M W A) (w : W) : Completion A * State W :=
  m (start w).

(** The storage calls made, in order, and the errors they were rejected
    with. *)
Definition calls {W} (st : State W) : list S3.Call := map call (trace st).

Definition failures {W} (st : State W) : list JS.Error :=
  omap failure (trace st).

End Handler.

Declare Scope handler_scope.
Delimit Scope handler_scope with handler.
Notation "x <- m ;; k" := (Handler.bind m (fun x => k))
  (at level 100, m at next level, right associativity) : handler_scope.
Notation "m ;;; k" := (Handler.bind m (fun _ => k))
  (at level 100, right associativity) : handler_scope.

(** ** The upload middleware (multer) *)

Module multer.

(** A file part of a multipart body, as the parser reports it. *)
Record FilePart : Type :=
  { part_fieldname : string; part_filename : string;
    part_mimetype : string; part_data : JS.Buffer }.

(** The file object that memory storage leaves in [req.file]. *)
Record File : Type :=
  { fieldname : string; originalname : string; mimetype : string;
    buffer : JS.Buffer; size : N }.

Record Limits : Type := { fileSize : N }.

Record Options : Type :=
  { limits : Limits;
    fileFilter : FilePart -> bool }.

Definition MulterError (code message : string) : JS.Error :=
  {| JS.code := Some code; JS.message := message |}.

Definition LIMIT_FILE_SIZE : JS.Error :=
  MulterError "LIMIT_FILE_SIZE" "File too large".

Definition LIMIT_UNEXPECTED_FILE : JS.Error :=
  MulterError "LIMIT_UNEXPECTED_FILE" "Unexpected field".

(** The parser raises [limit] on a file longer than [fileSize].  Whether a
    file of exactly [fileSize] bytes raises it too depends on the release
    of the multipart parser in use, which the repository does not pin:
    [at_cap] is [true] when it does. *)
Definition limit_reached (at_cap : bool) (fileSize size : N) : bool :=
  if at_cap then (fileSize <=? size)%N else (fileSize <? size)%N.

Definition memoryStorage (p : FilePart) : File :=
  {| fieldname := part_fieldname p;
     originalname := part_filename p;
     mimetype := part_mimetype p;
     buffer := part_data p;
     size := JS.byteLength (part_data p) |}.

(** The file parts are handled in order.  A part without a file name is
    skipped; a part whose field has no file left to accept aborts the
    request, and so does a file that reaches the size limit. *)
Fixpoint handle_parts (at_cap : bool) (options : Options) (name : string)
    (filesLeft : nat) (file : option File) (parts : list FilePart)
    : JS.Error + option File :=
  match parts with
  | [] => inr file
  | p :: rest =>
      if String.eqb (part_filename p) "" then
        handle_parts at_cap options name filesLeft file rest
      else if negb (String.eqb (part_fieldname p) name) || Nat.eqb filesLeft 0 then
        inl LIMIT_UNEXPECTED_FILE
      else if negb (fileFilter options p) then
        handle_parts at_cap options name (filesLeft - 1) file rest
      else if limit_reached at_cap (fileSize (limits options))
                (JS.byteLength (part_data p)) then
        inl LIMIT_FILE_SIZE
      else
        handle_parts at_cap options name (filesLeft - 1)
          (Some (memoryStorage p)) rest
  end.

(** [upload.single(name)]: at most one file, under the field [name].  A
    request that is not multipart is passed on untouched.  The result is
    the error given to [next], or the value of [req.file]. *)
Definition single (at_cap : bool) (options : Options) (name : string)
    (multipart : option (list FilePart)) : JS.Error + option File :=
  match multipart with
  | None => inr None
  | Some parts => handle_parts at_cap options name 1 None parts
  end.

End multer.

(** ** Requests and responses (Express) *)

Module Express.

Record Params : Type := { key : string }.

Record Query : Type := { expires : JS.Value }.

(** The parts of a request the routes read.  [multipart] is the list of
    file parts of a multipart body ([None] for any other body); the text
    fields of a form, which the routes do not read, are left out. *)
Record Request : Type :=
  { multipart : option (list multer.FilePart);
    file : option multer.File;
    params : Params;
    query : Query }.

Definition with_file (f : option multer.File) (req : Request) : Request :=
  {| multipart := multipart req; file := f;
     params := params req; query := query req |}.

(** What is sent: nothing yet, a JSON text, the bytes of a stream, the
    page of the default error handler.  [NotSent] is the end of a request
    whose stream failed: the [error] event has no listener, the error is
    uncaught, and no response is sent. *)
Inductive Body : Type :=
  | NoBody
  | Json (j : JS.json)
  | Piped (stream : S3.ReadStream)
  | ErrorPage (e : JS.Error)
  | NotSent (e : JS.Error).

Record Response : Type :=
  { statusCode : Z; headers : list (string * string); body : Body }.

(** The response object a handler starts from. *)
Definition res : Response :=
  {| statusCode := 200; headers := []; body := NoBody |}.

Definition status (code : Z) (r : Response) : Response :=
  {| statusCode := code; headers := headers r; body := body r |}.

Definition json (j : JS.json) (r : Response) : Response :=
  {| statusCode := statusCode r; headers := headers r; body := Json j |}.

(** The characters a header value may hold: TAB, U+0020 to U+007E and
    U+0080 to U+00FF (in UTF-8, the bytes C2 and C3 and the byte after
    them). *)
Fixpoint header_safe (value : string) : bool :=
  match value with
  | EmptyString => true
  | String c rest =>
      let n := JS.char_code c in
      if (n =? 9) || ((32 <=? n) && (n <=? 126)) then header_safe rest
      else if (n =? 194) || (n =? 195) then
        match rest with
        | String c2 rest2 =>
            (128 <=? JS.char_code c2) && (JS.char_code c2 <=? 191)
            && header_safe rest2
        | EmptyString => false
        end
      else false
  end.

Definition ERR_INVALID_CHAR (name : string) : JS.Error :=
  {| JS.code := Some "ERR_INVALID_CHAR";
     JS.message :=
       "Invalid character in header content [" +:+ JS.dquote +:+ name
         +:+ JS.dquote +:+ "]" |}.

(** [res.setHeader(name, value)]: it throws on a value with a character
    that a header may not hold. *)
Definition setHeader (name value : string) (r : Response)
    : Handler.Completion Response :=
  if header_safe value then
    Handler.Normal
      {| statusCode := statusCode r;
         headers := filter (fun h => negb (String.eqb (fst h) name)) (headers r)
                      ++ [(name, value)];
         body := body r |}
  else Handler.Throw (ERR_INVALID_CHAR name).

(** [stream.pipe(res)]: the bytes of the stream are the body; when the
    stream fails instead, nothing is sent. *)
Definition pipe (stream : S3.ReadStream) (r : Response) : Response :=
  {| statusCode := statusCode r;
     headers := headers r;
     body := match stream with
             | S3.Data _ => Piped stream
             | S3.Failing e => NotSent e
             end |}.

(** A member of a JSON body. *)
Definition body_field (name : string) (r : Response) : option JS.json :=
  match body r with
  | Json j => JS.field name j
  | _ => None
  end.

(** No error-handling middleware is installed: an error given to [next]
    reaches the default handler, which answers 500 with an error page. *)
Definition default_error_handler (err : JS.Error) : Response :=
  {| statusCode := 500; headers := []; body := ErrorPage err |}.

(** The same handler, for an error that carries a status of its own. *)
Definition error_page (status : Z) (err : JS.Error) : Response :=
  {| statusCode := status; headers := []; body := ErrorPage err |}.

(** The refusals of the JSON body parser, and the status of each: the
    error types of the parser, and the failure to inflate a compressed
    body, which has no type. *)
Inductive BodyError : Type :=
  | entity_parse_failed
  | entity_too_large
  | request_aborted
  | request_size_invalid
  | inflate_failed
  | charset_unsupported
  | encoding_unsupported.

Definition body_error_status (kind : BodyError) : Z :=
  match kind with
  | entity_parse_failed | request_aborted | request_size_invalid
  | inflate_failed => 400
  | entity_too_large => 413
  | charset_unsupported | encoding_unsupported => 415
  end.

(** What [express.json()] does with the body of a request: it passes a
    request without a JSON body on, parses a JSON body, or gives an error
    to [next]. *)
Inductive JsonBody : Type :=
  | NotJson
  | Parsed
  | Refused (kind : BodyError) (err : JS.Error).

(** A request as it comes in: whether it was made with HEAD, which the
    router gives to the route of GET; [req.fresh], as the validators of
    the request ([If-None-Match], [If-Modified-Since]) decide it against
    the response about to be sent, [false] for a request without them;
    what the body parser makes of the request; whether the [:key] segment
    of the path can be decoded; and the request the route sees when the
    parser and the router let it through. *)
Record Incoming : Type :=
  { head : bool;
    fresh : Response -> bool;
    json_body : JsonBody;
    key_decodes : bool;
    request : Request }.

Definition URIError : JS.Error :=
  {| JS.code := None; JS.message := "Failed to decode param" |}.

Definition without_body (code : Z) (r : Response) : Response :=
  {| statusCode := code; headers := headers r; body := NoBody |}.

(** [req.fresh] for a request made with GET or HEAD: only a response with
    a status from 200 to 299, or 304, can be fresh. *)
Definition is_fresh (incoming : Incoming) (r : Response) : bool :=
  let s := statusCode r in
  (((200 <=? s) && (s <? 300)) || (s =? 304)) && fresh incoming r.

(** What goes out for a request made with GET or HEAD.  [res.send], in
    which [res.json] ends, answers 304 without the body when the request
    is fresh.  A request made with HEAD is answered without a body in
    every case. *)
Definition end_of_get (incoming : Incoming) (r : Response) : Response :=
  match body r with
  | NotSent _ => r
  | Json _ =>
      if is_fresh incoming r then without_body 304 r
      else if head incoming then without_body (statusCode r) r
      else r
  | _ => if head incoming then without_body (statusCode r) r else r
  end.

End Express.

(** ** The application *)

Section Server.

Context {W : Type} {s3 : S3.Client W}.

(** [process.env.S3_BUCKET_NAME], as configured for the deployment. *)
Variable BUCKET_NAME : string.

(** Boundary rule of the multipart parser (see [multer.limit_reached]). *)
Variable at_cap : bool.

Local Open Scope handler_scope.
Import JS.

Definition upload : multer.Options :=
  {| multer.limits := {| multer.fileSize := 10 * 1024 * 1024 |};
     multer.fileFilter := fun file => true |}.

(** [`${Date.now()}-${req.file.originalname}`], [now] being the value of
    [Date.now()]. *)
Definition fileKey (now : Z) (file : multer.File) : string :=
  decimal now +:+ "-" +:+ multer.originalname file.

(** [parseInt(req.query.expires) || 3600]; [None] when [parseInt] throws. *)
Definition expiration (req : Express.Request) : option Number :=
  option_map (fun parsed => logical_or parsed (Int 3600))
    (parseInt (Express.expires (Express.query req))).

(** [app.post('/api/upload', upload.single('file'), async (req, res) => ...)]:
    the handler. *)
Definition post_api_upload_handler (now : Z) (req : Express.Request)
    : Handler.M W Express.Response :=
  Handler.try_catch
    (match Express.file req with
     | None =>
         Handler.ret
           (Express.json (JObj [("error", JStr "No file provided")])
              (Express.status 400 Express.res))
     | Some file =>
         let fileKey := fileKey now file in
         let uploadParams :=
           {| S3.UploadParams.Bucket := BUCKET_NAME;
              S3.UploadParams.Key := fileKey;
              S3.UploadParams.Body := multer.buffer file;
              S3.UploadParams.ContentType := multer.mimetype file;
              S3.UploadParams.ACL := "private" |} in
         result <- Handler.await (S3.upload_call uploadParams)
                     (S3.upload uploadParams) ;;
         Handler.ret
           (Express.json
              (JObj [("success", JBool true);
                     ("message", JStr "File uploaded successfully");
                     ("data",
                      JObj [("key", JStr fileKey);
                            ("location", JStr (S3.SendData.Location result));
                            ("bucket", JStr (S3.SendData.Bucket result));
                            ("etag", JStr (S3.SendData.ETag result))])])
              Express.res)
     end)
    (fun error =>
       Handler.ret
         (Express.json
            (JObj [("error", JStr "Failed to upload file");
                   ("details", JStr (message error))])
            (Express.status 500 Express.res))).

(** The route: the middleware first; its error skips the handler. *)
Definition post_api_upload (now : Z) (req : Express.Request)
    : Handler.M W Express.Response :=
  match multer.single at_cap upload "file" (Express.multipart req) with
  | inl err => Handler.ret (Express.default_error_handler err)
  | inr file => post_api_upload_handler now (Express.with_file file req)
  end.

(** The projection applied to each listed object. *)
Definition file_entry (file : S3.Object.t) : json :=
  JObj [("key", JStr (S3.Object.Key file));
        ("lastModified", JDate (S3.Object.LastModified file));
        ("size", JNum (S3.Object.Size file));
        ("etag", JStr (S3.Object.ETag file))].

(** [app.get('/api/files', ...)] *)
Definition get_api_files (req : Express.Request) : Handler.M W Express.Response :=
  Handler.try_catch
    (let params :=
       {| S3.ListParams.Bucket := BUCKET_NAME;
          S3.ListParams.MaxKeys := 1000 |} in
     result <- Handler.await (S3.listObjectsV2_call params)
                 (S3.listObjectsV2 params) ;;
     let files := map file_entry (S3.ListOutput.Contents result) in
     Handler.ret
       (Express.json
          (JObj [("success", JBool true);
                 ("files", JArr files);
                 ("count", JNum (Z.of_nat (length files)))])
          Express.res))
    (fun error =>
       Handler.ret
         (Express.json
            (JObj [("error", JStr "Failed to retrieve files");
                   ("details", JStr (message error))])
            (Express.status 500 Express.res))).

(** [app.get('/api/download/:key', ...)].  The inner [try] returns from the
    handler on a [NotFound] probe and rethrows any other error.  A header
    that cannot be set throws into the [catch].  The stream is piped with
    no [error] listener, so a failing stream is not seen by the [catch]. *)
Definition get_api_download (req : Express.Request) : Handler.M W Express.Response :=
  Handler.try_catch
    (let fileKey := Express.key (Express.params req) in
     let params :=
       {| S3.ObjectParams.Bucket := BUCKET_NAME;
          S3.ObjectParams.Key := fileKey |} in
     found <- Handler.try_catch
                (Handler.await (S3.headObject_call params) (S3.headObject params) ;;;
                 Handler.ret None)
                (fun headError =>
                   if decide (code headError = Some "NotFound") then
                     Handler.ret
                       (Some (Express.json (JObj [("error", JStr "File not found")])
                                (Express.status 404 Express.res)))
                   else Handler.throw headError) ;;
     match found with
     | Some response => Handler.ret response
     | None =>
         fileStream <- Handler.invoke (S3.getObject_call params)
                         (S3.getObject_createReadStream params) ;;
         res1 <- Handler.step
                   (Express.setHeader "Content-Disposition"
                      ("attachment; filename=" +:+ dquote +:+ fileKey +:+ dquote)
                      Express.res) ;;
         res2 <- Handler.step
                   (Express.setHeader "Content-Type" "application/octet-stream"
                      res1) ;;
         Handler.ret (Express.pipe fileStream res2)
     end)
    (fun error =>
       Handler.ret
         (Express.json
            (JObj [("error", JStr "Failed to download file");
                   ("details", JStr (message error))])
            (Express.status 500 Express.res))).

(** [app.get('/api/file-url/:key', ...)] *)
Definition get_api_file_url (req : Express.Request) : Handler.M W Express.Response :=
  Handler.try_catch
    (let fileKey := Express.key (Express.params req) in
     expiration <- Handler.step
                     (match expiration req with
                      | Some number => Handler.Normal number
                      | None => Handler.Throw not_a_primitive
                      end) ;;
     let params :=
       {| S3.UrlParams.Bucket := BUCKET_NAME;
          S3.UrlParams.Key := fileKey;
          S3.UrlParams.Expires := expiration |} in
     url <- Handler.await (S3.getSignedUrl_call "getObject" params)
              (S3.getSignedUrlPromise "getObject" params) ;;
     Handler.ret
       (Express.json
          (JObj [("success", JBool true);
                 ("url", JStr url);
                 ("expires", json_of_number expiration)])
          Express.res))
    (fun error =>
       Handler.ret
         (Express.json
            (JObj [("error", JStr "Failed to generate file URL");
                   ("details", JStr (message error))])
            (Express.status 500 Express.res))).

(** [app.delete('/api/delete/:key', ...)] *)
Definition delete_api_delete (req : Express.Request) : Handler.M W Express.Response :=
  Handler.try_catch
    (let fileKey := Express.key (Express.params req) in
     let params :=
       {| S3.ObjectParams.Bucket := BUCKET_NAME;
          S3.ObjectParams.Key := fileKey |} in
     Handler.await (S3.deleteObject_call params) (S3.deleteObject params) ;;;
     Handler.ret
       (Express.json
          (JObj [("success", JBool true);
                 ("message", JStr "File deleted successfully");
                 ("key", JStr fileKey)])
          Express.res))
    (fun error =>
       Handler.ret
         (Express.json
            (JObj [("error", JStr "Failed to delete file");
                   ("details", JStr (message error))])
            (Express.status 500 Express.res))).

(** [app.get('/api/health', ...)]; [now] is the time value of [new Date()]. *)
Definition get_api_health (now : Z) (req : Express.Request) : Handler.M W Express.Response :=
  Handler.ret
    (Express.json (JObj [("status", JStr "OK"); ("timestamp", JDate now)])
       Express.res).

(** The six routes of the application. *)
Inductive Route : Type :=
  | POST_upload
  | GET_files
  | GET_download
  | GET_file_url
  | DELETE_delete
  | GET_health.

(** The routes: what runs for a request that the middleware placed before
    them and the router let through. *)
Definition app (route : Route) (now : Z) (req : Express.Request)
    : Handler.M W Express.Response :=
  match route with
  | POST_upload => post_api_upload now req
  | GET_files => get_api_files req
  | GET_download => get_api_download req
  | GET_file_url => get_api_file_url req
  | DELETE_delete => delete_api_delete req
  | GET_health => get_api_health now req
  end.

(** The routes whose path has the [:key] segment. *)
Definition has_key_segment (route : Route) : bool :=
  match route with
  | GET_download | GET_file_url | DELETE_delete => true
  | _ => false
  end.

(** The routes of [app.get], which also take the requests made with
    HEAD. *)
Definition is_get (route : Route) : bool :=
  match route with
  | GET_files | GET_download | GET_file_url | GET_health => true
  | _ => false
  end.

(** The response as it goes out on a route. *)
Definition outgoing (route : Route) (incoming : Express.Incoming)
    (r : Express.Response) : Express.Response :=
  if is_get route then Express.end_of_get incoming r else r.

(** The application, from the request as it comes in:
    [app.use(express.json())] first, whose error goes to the default error
    handler with the status it carries; then the router, which answers 400
    when it cannot decode the [:key] segment; then the route. *)
Definition server (route : Route) (now : Z) (incoming : Express.Incoming)
    : Handler.M W Express.Response :=
  r <- match Express.json_body incoming with
       | Express.Refused kind err =>
           Handler.ret
             (Express.error_page (Express.body_error_status kind) err)
       | _ =>
           if has_key_segment route && negb (Express.key_decodes incoming)
           then Handler.ret (Express.error_page 400 Express.URIError)
           else app route now (Express.request incoming)
       end ;;
  Handler.ret (outgoing route incoming r).

End Server.

(** ** A storage service held in memory *)

Module InMemory.

Record StoredObject : Type :=
  { body : JS.Buffer; contentType : string; acl : string;
    lastModified : Z; etag : string }.

Section Service.

(** The content tag the service computes for a body, and its clock. *)
Variable etag_of : JS.Buffer -> string.
Variable time : Z.

Definition NotFound : JS.Error :=
  {| JS.code := Some "NotFound"; JS.message := "Not Found" |}.

Definition NoSuchKey : JS.Error :=
  {| JS.code := Some "NoSuchKey";
     JS.message := "The specified key does not exist." |}.

Definition summary (entry : string * StoredObject) : S3.Object.t :=
  {| S3.Object.Key := fst entry;
     S3.Object.LastModified := lastModified (snd entry);
     S3.Object.ETag := etag (snd entry);
     S3.Object.Size := Z.of_N (JS.byteLength (body (snd entry)));
     S3.Object.StorageClass := "STANDARD" |}.

Definition put (params : S3.UploadParams.t) (objects : gmap string StoredObject)
    : S3.Settled S3.SendData.t * gmap string StoredObject :=
  let key := S3.UploadParams.Key params in
  let object :=
    {| body := S3.UploadParams.Body params;
       contentType := S3.UploadParams.ContentType params;
       acl := S3.UploadParams.ACL params;
       lastModified := time;
       etag := etag_of (S3.UploadParams.Body params) |} in
  (S3.Fulfilled
     {| S3.SendData.Location :=
          "https://" +:+ S3.UploadParams.Bucket params
            +:+ ".s3.amazonaws.com/" +:+ key;
        S3.SendData.ETag := etag object;
        S3.SendData.Bucket := S3.UploadParams.Bucket params;
        S3.SendData.Key := key |},
   <[key := object]> objects).

Definition enumerate (params : S3.ListParams.t) (objects : gmap string StoredObject)
    : S3.Settled S3.ListOutput.t * gmap string StoredObject :=
  let all := map summary (map_to_list objects) in
  let max := Z.to_nat (S3.ListParams.MaxKeys params) in
  (S3.Fulfilled
     {| S3.ListOutput.Contents := take max all;
        S3.ListOutput.IsTruncated := Nat.ltb max (length all) |},
   objects).

Definition probe (params : S3.ObjectParams.t) (objects : gmap string StoredObject)
    : S3.Settled S3.HeadOutput.t * gmap string StoredObject :=
  match objects !! S3.ObjectParams.Key params with
  | Some object =>
      (S3.Fulfilled
         {| S3.HeadOutput.ContentLength := Z.of_N (JS.byteLength (body object));
            S3.HeadOutput.ContentType := contentType object;
            S3.HeadOutput.ETag := etag object;
            S3.HeadOutput.LastModified := lastModified object |},
       objects)
  | None => (S3.Rejected NotFound, objects)
  end.

Definition read (params : S3.ObjectParams.t) (objects : gmap string StoredObject)
    : S3.ReadStream * gmap string StoredObject :=
  match objects !! S3.ObjectParams.Key params with
  | Some object => (S3.Data (body object), objects)
  | None => (S3.Failing NoSuchKey, objects)
  end.

Definition sign (operation : string) (params : S3.UrlParams.t)
    (objects : gmap string StoredObject)
    : S3.Settled string * gmap string StoredObject :=
  (S3.Fulfilled
     ("https://" +:+ S3.UrlParams.Bucket params +:+ ".s3.amazonaws.com/"
        +:+ S3.UrlParams.Key params +:+ "?X-Amz-Expires="
        +:+ JS.number_to_string (S3.UrlParams.Expires params)),
   objects).

(** Deleting never fails on a missing key. *)
Definition remove (params : S3.ObjectParams.t) (objects : gmap string StoredObject)
    : S3.Settled unit * gmap string StoredObject :=
  (S3.Fulfilled tt, delete (S3.ObjectParams.Key params) objects).

(** Modelled from the spec: the object storage service is an external
    collaborator, absent from the repository.  This client follows its
    contract in the spec (put-object, list-objects with a maximum,
    head-object, get-object-stream, get-signed-url, delete-object) for a
    single bucket; deleting a missing key is acknowledged like any other
    delete. *)
Definition client : S3.Client (gmap string StoredObject) :=
  {| S3.upload := put;
     S3.listObjectsV2 := enumerate;
     S3.headObject := probe;
     S3.getObject_createReadStream := read;
     S3.getSignedUrlPromise := sign;
     S3.deleteObject := remove |}.

End Service.

End InMemory.

(** ** A storage service that rejects every call *)

Module Rejecting.

(** Every operation fails with the error [e]; there is no state. *)
Definition client (e : JS.Error) : S3.Client unit :=
  {| S3.upload := fun _ w => (S3.Rejected e, w);
     S3.listObjectsV2 := fun _ w => (S3.Rejected e, w);
     S3.headObject := fun _ w => (S3.Rejected e, w);
     S3.getObject_createReadStream := fun _ w => (S3.Failing e, w);
     S3.getSignedUrlPromise := fun _ _ w => (S3.Rejected e, w);
     S3.deleteObject := fun _ w => (S3.Rejected e, w) |}.

End Rejecting.

(** ** Requests and JSON bodies in statements *)

(** The value of the [Content-Disposition] header of a download. *)
Definition content_disposition (fileKey : string) : string :=
  "attachment; filename=" +:+ JS.dquote +:+ fileKey +:+ JS.dquote.

(** A request that uploads the single file part [p]. *)
Definition upload_of (p : multer.FilePart) : Express.Request :=
  {| Express.multipart := Some [p];
     Express.file := None;
     Express.params := {| Express.key := "" |};
     Express.query := {| Express.expires := JS.Undefined |} |}.

(** A request for the key [key] with the query value [expires]. *)
Definition request_for (key : string) (expires : JS.Value) : Express.Request :=
  {| Express.multipart := None;
     Express.file := None;
     Express.params := {| Express.key := key |};
     Express.query := {| Express.expires := expires |} |}.

(** The request [req] as it comes in with the method of the route and
    without validators, when the body parser passes it on and the path
    can be decoded. *)
Definition plain (req : Express.Request) : Express.Incoming :=
  {| Express.head := false;
     Express.fresh := fun _ => false;
     Express.json_body := Express.NotJson;
     Express.key_decodes := true;
     Express.request := req |}.

(** Does the string [msg] occur in some string of the JSON value? *)
Definition occurs_in (msg s : string) : bool :=
  match String.index 0 msg s with
  | Some _ => true
  | None => false
  end.

Fixpoint mentions (msg : string) (j : JS.json) : bool :=
  match j with
  | JS.JStr s => occurs_in msg s
  | JS.JArr items => existsb (mentions msg) items
  | JS.JObj members => existsb (fun m => mentions msg (snd m)) members
  | _ => false
  end.

(** ** Outcomes of requests *)

Section Outcomes.

Context {W : Type} {s3 : S3.Client W}.
Variable BUCKET_NAME : string.
Variable at_cap : bool.

(** The signed-URL route worked with the expiry [E]: [E] is the expiry of
    the one storage call made, and when that call succeeds the answer is a
    200 that carries the URL and echoes [E]; when it fails, a 500. *)
Definition signed_url_expiry (req : Express.Request) (w : W) (E : JS.Number)
    : Prop :=
  let params :=
    {| S3.UrlParams.Bucket := BUCKET_NAME;
       S3.UrlParams.Key := Express.key (Express.params req);
       S3.UrlParams.Expires := E |} in
  exists r st,
    Handler.run (get_api_file_url BUCKET_NAME req) w = (Handler.Normal r, st)
    /\ Handler.calls st = [S3.getSignedUrl_call "getObject" params]
    /\ match fst (S3.getSignedUrlPromise "getObject" params w) with
       | S3.Fulfilled url =>
           Express.statusCode r = 200
           /\ Express.body_field "url" r = Some (JS.JStr url)
           /\ Express.body_field "expires" r = Some (JS.json_of_number E)
       | S3.Rejected _ => Express.statusCode r = 500
       end.

(** The signed-URL route did not get as far as the storage call: the
    conversion of [expires] threw, the answer is a 500 that carries the
    message of the error, and nothing was called. *)
Definition signed_url_refused (req : Express.Request) (w : W) : Prop :=
  exists r,
    Handler.run (get_api_file_url BUCKET_NAME req) w
    = (Handler.Normal r, Handler.start w)
    /\ Express.statusCode r = 500
    /\ Express.body_field "details" r
       = Some (JS.JStr (JS.message JS.not_a_primitive)).

(** The size cap configured for uploads. *)
Definition cap : N := multer.fileSize (multer.limits upload).

(** The upload middleware refuses the request: the handler does not run,
    the default error handler answers, and the storage service is neither
    called nor changed. *)
Definition rejected_before_handler (now : Z) (req : Express.Request) (w : W)
    : Prop :=
  exists err,
    multer.single at_cap upload "file" (Express.multipart req) = inl err
    /\ Handler.run (post_api_upload BUCKET_NAME at_cap now req) w
       = (Handler.Normal (Express.default_error_handler err), Handler.start w).

Definition size_check_admits (size : N) : Prop :=
  multer.limit_reached at_cap cap size = false.

(** Does the multipart body have a part under the field [name]?  Does it
    have a file at all (a part with a file name)? *)
Definition carries_field (name : string) (req : Express.Request) : bool :=
  match Express.multipart req with
  | Some parts =>
      existsb (fun p => String.eqb (multer.part_fieldname p) name) parts
  | None => false
  end.

Definition carries_file (req : Express.Request) : bool :=
  match Express.multipart req with
  | Some parts =>
      existsb (fun p => negb (String.eqb (multer.part_filename p) "")) parts
  | None => false
  end.

(** The wording of the spec on the size cap, for a request that uploads
    the one file [p]: rejected from the cap upward, admitted up to the cap. *)
Definition size_cap_as_stated (now : Z) (p : multer.FilePart) (w : W) : Prop :=
  ((cap <= JS.byteLength (multer.part_data p))%N ->
   rejected_before_handler now (upload_of p) w)
  /\ ((JS.byteLength (multer.part_data p) <= cap)%N ->
      size_check_admits (JS.byteLength (multer.part_data p))).

(** The wording of the spec on an upload without a [file] field: a 400,
    the storage service neither called nor changed. *)
Definition missing_field_as_stated (now : Z) (req : Express.Request) (w : W)
    : Prop :=
  carries_field "file" req = false ->
  exists r,
    Handler.run (post_api_upload BUCKET_NAME at_cap now req) w
    = (Handler.Normal r, Handler.start w)
    /\ Express.statusCode r = 400.


(** The wording of the spec on storage failures: a 500 (a 404 for the
    download of a missing key), the error's message in the JSON body. *)
Definition storage_failure_as_stated (route : Route) (now : Z)
    (req : Express.Request) (w : W) : Prop :=
  forall r st e,
    Handler.run (app BUCKET_NAME at_cap route now req) w = (Handler.Normal r, st) ->
    In e (Handler.failures st) ->
    (Express.statusCode r = 500
     \/ (route = GET_download /\ JS.code e = Some "NotFound"
         /\ Express.statusCode r = 404))
    /\ exists j, Express.body r = Express.Json j
                 /\ mentions (JS.message e) j = true.

End Outcomes.

(** ** Sample data *)

Module Sample.

Definition s3 : S3.Client (gmap string InMemory.StoredObject) :=
  InMemory.client (fun _ => "9b2cf535f27731c974343645a3985328") 1700000000000.

(** A buffer of [n] zero bytes. *)
Definition zeros (n : N) : JS.Buffer :=
  {| JS.byteLength := n; JS.byteAt := fun _ => Byte.x00 |}.

Definition part (field name : string) (size : N) : multer.FilePart :=
  {| multer.part_fieldname := field;
     multer.part_filename := name;
     multer.part_mimetype := "application/octet-stream";
     multer.part_data := zeros size |}.

Definition object (size : N) : InMemory.StoredObject :=
  {| InMemory.body := zeros size;
     InMemory.contentType := "text/plain";
     InMemory.acl := "private";
     InMemory.lastModified := 1600000000000;
     InMemory.etag := "0cc175b9c0f1b6a831c399e269772661" |}.

(** A bucket that holds one object. *)
Definition bucket : gmap string InMemory.StoredObject :=
  <["1700000000000-a.txt" := object 5]> ∅.

(** A key with a line feed in it, and a bucket that holds an object under
    it. *)
Definition key_with_line_feed : string :=
  "a" +:+ String (ascii_of_N 10) "b".


Definition SyntaxError : JS.Error :=
  {| JS.code := None;
     JS.message := "Unexpected token } in JSON at position 1" |}.

Definition KeyNotFound : JS.Error :=
  {| JS.code := Some "NotFound";
     JS.message := "The specified key does not exist." |}.

Definition InvalidObjectState : JS.Error :=
  {| JS.code := Some "InvalidObjectState";
     JS.message := "The operation is not valid for the object's storage class" |}.

(** A service whose objects are all archived: the probe succeeds, the
    body cannot be read. *)
Definition archived : S3.Client unit :=
  {| S3.upload := fun _ w => (S3.Rejected InvalidObjectState, w);
     S3.listObjectsV2 :=
       fun _ w =>
         (S3.Fulfilled {| S3.ListOutput.Contents := [];
                          S3.ListOutput.IsTruncated := false |}, w);
     S3.headObject :=
       fun _ w =>
         (S3.Fulfilled {| S3.HeadOutput.ContentLength := 5;
                          S3.HeadOutput.ContentType := "text/plain";
                          S3.HeadOutput.ETag := "0cc175b9c0f1b6a831c399e269772661";
                          S3.HeadOutput.LastModified := 1600000000000 |}, w);
     S3.getObject_createReadStream := fun _ w => (S3.Failing InvalidObjectState, w);
     S3.getSignedUrlPromise := fun _ _ w => (S3.Rejected InvalidObjectState, w);
     S3.deleteObject := fun _ w => (S3.Fulfilled tt, w) |}.

Definition ServiceUnavailable : JS.Error :=
  {| JS.code := Some "ServiceUnavailable";
     JS.message := "Please reduce your request rate." |}.

End Sample.

(** ** Reading the calls of a run *)

(** The bucket a call names, and its key (a listing has none). *)
Definition call_bucket (c : S3.Call) : string :=
  match c with
  | S3.upload_call params => S3.UploadParams.Bucket params
  | S3.listObjectsV2_call params => S3.ListParams.Bucket params
  | S3.headObject_call params => S3.ObjectParams.Bucket params
  | S3.getObject_call params => S3.ObjectParams.Bucket params
  | S3.getSignedUrl_call _ params => S3.UrlParams.Bucket params
  | S3.deleteObject_call params => S3.ObjectParams.Bucket params
  end.

Definition call_key (c : S3.Call) : option string :=
  match c with
  | S3.upload_call params => Some (S3.UploadParams.Key params)
  | S3.listObjectsV2_call _ => None
  | S3.headObject_call params => Some (S3.ObjectParams.Key params)
  | S3.getObject_call params => Some (S3.ObjectParams.Key params)
  | S3.getSignedUrl_call _ params => Some (S3.UrlParams.Key params)
  | S3.deleteObject_call params => Some (S3.ObjectParams.Key params)
  end.

(** The operations found in the text of each route's handler. *)
Definition permitted (route : Route) (c : S3.Call) : bool :=
  match route, c with
  | POST_upload, S3.upload_call _ => true
  | GET_files, S3.listObjectsV2_call _ => true
  | GET_download, S3.headObject_call _ => true
  | GET_download, S3.getObject_call _ => true
  | GET_file_url, S3.getSignedUrl_call operation _ =>
      String.eqb operation "getObject"
  | DELETE_delete, S3.deleteObject_call _ => true
  | _, _ => false
  end.

(** The bytes a call sends to the service. *)
Definition call_body_length (c : S3.Call) : N :=
  match c with
  | S3.upload_call params => JS.byteLength (S3.UploadParams.Body params)
  | _ => 0
  end.

(** Does the string begin with a decimal digit? *)
Definition starts_with_digit (s : string) : bool :=
  match s with
  | String c _ =>
      match JS.digit_value c with
      | Some x => x <? 10
      | None => false
      end
  | EmptyString => false
  end.

(** A part that carries a file: it has a file name. *)
Definition named (p : multer.FilePart) : bool :=
  negb (String.eqb (multer.part_filename p) "").

(** * Properties *)

(** ** [parseInt] on decimal numerals *)

Module JSFacts.
Import JS.

Lemma digits_prefix_cons (R : Z) (c : ascii) (s : string) (x : Z) :
  digit_value c = Some x -> (x <? R) = true ->
  digits_prefix R (String c s) = x :: digits_prefix R s.
Proof. intros Hc Hx; cbn [digits_prefix]; rewrite Hc, Hx; reflexivity. Qed.

Ltac next_digit :=
  cbn [NilEmpty.string_of_uint];
  erewrite digits_prefix_cons by (vm_compute; reflexivity);
  cbn [fold_left].

Lemma digits_acc (d : Decimal.uint) (acc : positive) :
  fold_left (fun a x => a * 10 + x)
    (digits_prefix 10 (NilEmpty.string_of_uint d)) (Z.pos acc)
  = Z.pos (Pos.of_uint_acc d acc).
Proof.
  revert acc; induction d; intros acc; [reflexivity|..];
    next_digit; cbn [Pos.of_uint_acc]; rewrite <- IHd; f_equal; lia.
Qed.

Lemma mathInt_decimal (d : Decimal.uint) :
  mathInt 10 (digits_prefix 10 (NilEmpty.string_of_uint d))
  = Z.of_N (Pos.of_uint d).
Proof.
  unfold mathInt; induction d; [reflexivity|..]; next_digit;
    cbn [Pos.of_uint]; [exact IHd|..];
    (match goal with
     | |- fold_left _ _ ?a = Z.of_N (N.pos (Pos.of_uint_acc _ ?p)) =>
         change a with (Z.pos p); apply digits_acc
     end).
Qed.

Lemma mathInt_to_uint (p : positive) :
  mathInt 10 (digits_prefix 10 (NilEmpty.string_of_uint (Pos.to_uint p)))
  = Z.pos p.
Proof. rewrite mathInt_decimal, DecimalPos.Unsigned.of_to; reflexivity. Qed.

Lemma trim_start_digits (d : Decimal.uint) :
  trim_start (NilEmpty.string_of_uint d) = NilEmpty.string_of_uint d.
Proof. destruct d; reflexivity. Qed.

Lemma strip_sign_digits (d : Decimal.uint) :
  strip_sign (NilEmpty.string_of_uint d) = (false, NilEmpty.string_of_uint d).
Proof. destruct d; reflexivity. Qed.

Lemma strip_hex_prefix_digits (d : Decimal.uint) :
  strip_hex_prefix (NilEmpty.string_of_uint d)
  = (10, NilEmpty.string_of_uint d).
Proof.
  destruct d as [|d|d|d|d|d|d|d|d|d|d]; try reflexivity;
    destruct d; reflexivity.
Qed.

Lemma string_of_to_uint (p : positive) :
  NilZero.string_of_uint (Pos.to_uint p)
  = NilEmpty.string_of_uint (Pos.to_uint p).
Proof.
  pose proof (DecimalPos.Unsigned.to_uint_nonnil p) as Hnil.
  destruct (Pos.to_uint p); [congruence|reflexivity..].
Qed.

(** The value read back from the digits of a positive number. *)
Lemma parse_digits_of_positive (negative : bool) (p : positive) :
  match digits_prefix 10 (NilEmpty.string_of_uint (Pos.to_uint p)) with
  | [] => NaN
  | digits =>
      let m := mathInt 10 digits in
      if m =? 0 then (if negative then NegZero else Int 0)
      else match round_to_double m with
           | Some v => Int (if negative then - v else v)
           | None => Infinity negative
           end
  end
  = match round_to_double (Z.pos p) with
    | Some v => Int (if negative then - v else v)
    | None => Infinity negative
    end.
Proof.
  pose proof (mathInt_to_uint p) as Hm.
  destruct (digits_prefix 10 (NilEmpty.string_of_uint (Pos.to_uint p)))
    as [|x l]; [discriminate Hm|].
  cbv zeta; rewrite Hm; reflexivity.
Qed.

Lemma parseInt_decimal_pos (p : positive) :
  parse_integer (decimal (Z.pos p))
  = match round_to_double (Z.pos p) with
    | Some v => Int v
    | None => Infinity false
    end.
Proof.
  unfold parse_integer, decimal; cbn [Z.to_int NilZero.string_of_int].
  rewrite string_of_to_uint, trim_start_digits, strip_sign_digits,
    strip_hex_prefix_digits.
  apply (parse_digits_of_positive false).
Qed.

Lemma parseInt_decimal_neg (p : positive) :
  parse_integer (decimal (Z.neg p))
  = match round_to_double (Z.pos p) with
    | Some v => Int (- v)
    | None => Infinity true
    end.
Proof.
  unfold parse_integer, decimal; cbn [Z.to_int NilZero.string_of_int].
  rewrite string_of_to_uint.
  change (trim_start (String "-" ?s)) with (String "-" s).
  cbn [strip_sign]. rewrite strip_hex_prefix_digits.
  apply (parse_digits_of_positive true).
Qed.

Lemma round_to_double_safe (m : Z) :
  0 < m < 2 ^ 53 -> round_to_double m = Some m.
Proof.
  intros [Hpos Hlt]; unfold round_to_double; cbv zeta.
  assert (Z.log2 m < 53) by (apply Z.log2_lt_pow2; lia).
  destruct (Z.leb_spec (Z.log2 m + 1) 53); [reflexivity|lia].
Qed.

(** [parseInt] reads a decimal numeral back, exactly so in the range where
    the number type holds every integer. *)
Lemma parseInt_decimal (n : Z) :
  - 2 ^ 53 < n < 2 ^ 53 -> parse_integer (decimal n) = Int n.
Proof.
  intros Hn; destruct n as [|p|p].
  - reflexivity.
  - rewrite parseInt_decimal_pos, round_to_double_safe by lia; reflexivity.
  - rewrite parseInt_decimal_neg, round_to_double_safe by lia; reflexivity.
Qed.

Example parseInt_60 : parseInt (Str "60") = Some (Int 60).
Proof. reflexivity. Qed.

Example parseInt_0 : parseInt (Str "0") = Some (Int 0).
Proof. reflexivity. Qed.

Example parseInt_minus_0 : parseInt (Str "-0") = Some NegZero.
Proof. reflexivity. Qed.

Example parseInt_px : parseInt (Str "  -15px") = Some (Int (-15)).
Proof. reflexivity. Qed.

Example parseInt_hex : parseInt (Str "0x1f") = Some (Int 31).
Proof. reflexivity. Qed.

Example parseInt_abc : parseInt (Str "abc") = Some NaN.
Proof. reflexivity. Qed.

Example parseInt_undefined : parseInt Undefined = Some NaN.
Proof. reflexivity. Qed.

Example parseInt_array : parseInt (Arr [Str "7"; Str "9"]) = Some (Int 7).
Proof. reflexivity. Qed.

Example parseInt_object : parseInt (Obj [("a", Str "1")]) = Some NaN.
Proof. reflexivity. Qed.

Example parseInt_own_toString : parseInt (Obj [("toString", Str "x")]) = None.
Proof. reflexivity. Qed.

Example parseInt_array_with_object :
  parseInt (Arr [Str "60"; Obj [("toString", Str "x")]]) = None.
Proof. reflexivity. Qed.

Example parseInt_no_break_space :
  parseInt (Str (String (ascii_of_N 194) (String (ascii_of_N 160) "60")))
  = Some (Int 60).
Proof. reflexivity. Qed.

Example parseInt_byte_order_mark :
  parseInt (Str (String (ascii_of_N 239)
                   (String (ascii_of_N 187) (String (ascii_of_N 191) " 7"))))
  = Some (Int 7).
Proof. reflexivity. Qed.

Example parseInt_beyond_2_53 :
  parseInt (Str "9007199254740993") = Some (Int 9007199254740992).
Proof. reflexivity. Qed.

Example decimal_timestamp : decimal 1700000000000 = "1700000000000".
Proof. reflexivity. Qed.

End JSFacts.

(** ** The routes *)

Ltac run_handler :=
  unfold Handler.run, Handler.try_catch, Handler.bind, Handler.await,
    Handler.invoke, Handler.ret, Handler.throw, Handler.step, Handler.start;
  cbn [Handler.world Handler.trace].

Section ServerFacts.

Context {W : Type} {s3 : S3.Client W}.
Variable BUCKET_NAME : string.
Variable at_cap : bool.

Import JS.

(** The signed-URL route works with the value of [expiration]. *)
Lemma get_api_file_url_expiration (req : Express.Request) (w : W)
    (E : Number) :
  expiration req = Some E -> signed_url_expiry BUCKET_NAME req w E.
Proof.
  intros Hexp.
  unfold signed_url_expiry, get_api_file_url; cbv zeta; rewrite Hexp;
    run_handler.
  destruct (S3.getSignedUrlPromise _ _ w) as [[url|e] w'] eqn:Hcall;
    eexists _, _; (split; [reflexivity|]); (split; [reflexivity|]);
    cbn; auto.
Qed.

(** When [parseInt] throws, the route answers 500 and calls nothing. *)
Lemma get_api_file_url_throws (req : Express.Request) (w : W) :
  expiration req = None ->
  Handler.run (get_api_file_url BUCKET_NAME req) w
  = (Handler.Normal
       (Express.json
          (JObj [("error", JStr "Failed to generate file URL");
                 ("details", JStr (message not_a_primitive))])
          (Express.status 500 Express.res)),
     Handler.start w).
Proof.
  intros Hexp; unfold get_api_file_url; cbv zeta; rewrite Hexp; reflexivity.
Qed.

Lemma get_api_file_url_refused (req : Express.Request) (w : W) :
  expiration req = None -> signed_url_refused BUCKET_NAME req w.
Proof.
  intros Hexp; unfold signed_url_refused.
  rewrite (get_api_file_url_throws req w Hexp).
  eexists; repeat split.
Qed.

Lemma expiration_omitted (req : Express.Request) :
  Express.expires (Express.query req) = Undefined ->
  expiration req = Some (Int 3600).
Proof. unfold expiration; intros ->; reflexivity. Qed.

Lemma expiration_supplied (req : Express.Request) (n : Z) :
  n <> 0 -> - 2 ^ 53 < n < 2 ^ 53 ->
  Express.expires (Express.query req) = Str (decimal n) ->
  expiration req = Some (Int n).
Proof.
  unfold expiration, parseInt; intros Hn Hrange ->; cbn [ToString option_map].
  rewrite JSFacts.parseInt_decimal by exact Hrange.
  unfold logical_or; cbn [ToBoolean].
  destruct (Z.eqb_spec n 0); [contradiction|reflexivity].
Qed.

Lemma expiration_falsy (req : Express.Request) (parsed : Number) :
  parseInt (Express.expires (Express.query req)) = Some parsed ->
  ToBoolean parsed = false ->
  expiration req = Some (Int 3600).
Proof.
  unfold expiration, logical_or; intros -> Hfalsy; cbn [option_map].
  rewrite Hfalsy; reflexivity.
Qed.

End ServerFacts.

(** C1, as amended.  On the signed-URL route the expiry used in the storage
    call and echoed in the response is 3600 when [expires] is omitted, and
    is the supplied integer whenever a nonzero integer is supplied (in
    decimal, of magnitude below 2^53). *)
Theorem file_url_expiry_default_or_nonzero
    {W : Type} {s3 : S3.Client W} (BUCKET_NAME : string)
    (req : Express.Request) (w : W) :
  (Express.expires (Express.query req) = JS.Undefined ->
   signed_url_expiry BUCKET_NAME req w (JS.Int 3600))
  /\ (forall n : Z,
        n <> 0 -> - 2 ^ 53 < n < 2 ^ 53 ->
        Express.expires (Express.query req) = JS.Str (JS.decimal n) ->
        signed_url_expiry BUCKET_NAME req w (JS.Int n)).
Proof.
  split.
  - intros Hq; apply get_api_file_url_expiration, expiration_omitted, Hq.
  - intros n Hn Hrange Hq.
    apply get_api_file_url_expiration, expiration_supplied; assumption.
Qed.

Lemma file_url_expiry_default_or_nonzero_witness :
  signed_url_expiry (s3 := Sample.s3) "uploads"
    (request_for "a.txt" JS.Undefined) ∅ (JS.Int 3600)
  /\ signed_url_expiry (s3 := Sample.s3) "uploads"
       (request_for "a.txt" (JS.Str (JS.decimal 60))) ∅ (JS.Int 60).
Proof.
  split.
  - apply (proj1 (file_url_expiry_default_or_nonzero (s3 := Sample.s3)
                    "uploads" (request_for "a.txt" JS.Undefined) ∅)).
    reflexivity.
  - apply (proj2 (file_url_expiry_default_or_nonzero (s3 := Sample.s3)
                    "uploads" (request_for "a.txt" (JS.Str (JS.decimal 60))) ∅)
             60); [lia | lia | reflexivity].
Defined.

(** C1 as stated fails for a supplied 0: the route then works with 3600,
    not with 0. *)
Lemma file_url_expiry_zero :
  signed_url_expiry (s3 := Sample.s3) "uploads"
    (request_for "a.txt" (JS.Str (JS.decimal 0))) ∅ (JS.Int 3600)
  /\ ~ signed_url_expiry (s3 := Sample.s3) "uploads"
         (request_for "a.txt" (JS.Str (JS.decimal 0))) ∅ (JS.Int 0).
Proof.
  split.
  - apply (get_api_file_url_expiration (s3 := Sample.s3)); reflexivity.
  - intros (r & st & Hrun & Hcalls & _).
    unfold get_api_file_url in Hrun; revert Hrun; run_handler; cbn.
    intros Hrun; injection Hrun as _ <-.
    discriminate Hcalls.
Qed.

(** C10.  When [expires] parses to [NaN] or to zero, the signed-URL route
    does not fail: it works with 3600, which is both the expiry of the
    storage call and the value echoed in the response. *)
Theorem file_url_expiry_unparsable_or_zero
    {W : Type} {s3 : S3.Client W} (BUCKET_NAME : string)
    (req : Express.Request) (w : W) :
  JS.parseInt (Express.expires (Express.query req)) = Some JS.NaN
  \/ JS.parseInt (Express.expires (Express.query req)) = Some (JS.Int 0)
  \/ JS.parseInt (Express.expires (Express.query req)) = Some JS.NegZero ->
  signed_url_expiry BUCKET_NAME req w (JS.Int 3600).
Proof.
  intros Hparse; apply get_api_file_url_expiration.
  destruct Hparse as [Hparse | [Hparse | Hparse]];
    apply (expiration_falsy req _ Hparse); reflexivity.
Qed.

Lemma file_url_expiry_unparsable_or_zero_witness :
  signed_url_expiry (s3 := Sample.s3) "uploads"
    (request_for "a.txt" (JS.Str "soon")) ∅ (JS.Int 3600)
  /\ signed_url_expiry (s3 := Sample.s3) "uploads"
       (request_for "a.txt" (JS.Str "0")) ∅ (JS.Int 3600).
Proof.
  split.
  - apply (file_url_expiry_unparsable_or_zero (s3 := Sample.s3)).
    left; reflexivity.
  - apply (file_url_expiry_unparsable_or_zero (s3 := Sample.s3)).
    right; left; reflexivity.
Defined.

(** C8.  The list route makes one storage call, a listing of the bucket
    with [MaxKeys] 1000, and on success answers with the reported objects,
    in order, each projected to key, lastModified, size and etag. *)
Theorem list_files_request_and_projection
    {W : Type} {s3 : S3.Client W} (BUCKET_NAME : string)
    (req : Express.Request) (w : W) :
  let params :=
    {| S3.ListParams.Bucket := BUCKET_NAME; S3.ListParams.MaxKeys := 1000 |} in
  exists r st,
    Handler.run (get_api_files BUCKET_NAME req) w = (Handler.Normal r, st)
    /\ Handler.calls st = [S3.listObjectsV2_call params]
    /\ match fst (S3.listObjectsV2 params w) with
       | S3.Fulfilled result =>
           Express.statusCode r = 200
           /\ Express.body_field "files" r
              = Some (JS.JArr
                        (map (fun file =>
                                JS.JObj
                                  [("key", JS.JStr (S3.Object.Key file));
                                   ("lastModified",
                                    JS.JDate (S3.Object.LastModified file));
                                   ("size", JS.JNum (S3.Object.Size file));
                                   ("etag", JS.JStr (S3.Object.ETag file))])
                           (S3.ListOutput.Contents result)))
       | S3.Rejected e => Express.statusCode r = 500
       end.
Proof.
  unfold get_api_files; cbv zeta; run_handler.
  destruct (S3.listObjectsV2 _ w) as [[result|e] w'];
    eexists _, _; (split; [reflexivity|]); (split; [reflexivity|]);
    cbn; auto.
Qed.

(** C9.  In a successful list response, [count] is the number of elements
    of [files]. *)
Theorem list_files_count
    {W : Type} {s3 : S3.Client W} (BUCKET_NAME : string)
    (req : Express.Request) (w : W)
    (r : Express.Response) (st : Handler.State W) :
  Handler.run (get_api_files BUCKET_NAME req) w = (Handler.Normal r, st) ->
  Express.statusCode r = 200 ->
  exists files,
    Express.body_field "files" r = Some (JS.JArr files)
    /\ Express.body_field "count" r = Some (JS.JNum (Z.of_nat (length files))).
Proof.
  unfold get_api_files; cbv zeta; run_handler.
  destruct (S3.listObjectsV2 _ w) as [[result|e] w'];
    intros Hrun Hstatus; injection Hrun as <- <-.
  - eexists; split; reflexivity.
  - discriminate Hstatus.
Qed.

Lemma list_files_count_witness :
  exists r st,
    Handler.run (get_api_files (s3 := Sample.s3) "uploads"
                   (request_for "" JS.Undefined)) Sample.bucket
    = (Handler.Normal r, st)
    /\ exists files,
         Express.body_field "files" r = Some (JS.JArr files)
         /\ Express.body_field "count" r
            = Some (JS.JNum (Z.of_nat (length files))).
Proof.
  eexists _, _; split; [reflexivity|].
  eapply (list_files_count (s3 := Sample.s3) "uploads"
            (request_for "" JS.Undefined) Sample.bucket);
    reflexivity.
Defined.

(** C5.  The delete route makes exactly one storage call, the delete of
    the key, with no probe before it, and answers with success and the key
    whenever that call is acknowledged.  Against a service that
    acknowledges the delete of a missing key, the answer is the same
    success whether or not the key is in the bucket, and a second delete of
    the key gives the same answer and leaves the bucket as the first did. *)
Theorem delete_unconditional_and_idempotent :
  (forall (W : Type) (s3 : S3.Client W) (BUCKET_NAME : string)
          (req : Express.Request) (w : W),
      let params :=
        {| S3.ObjectParams.Bucket := BUCKET_NAME;
           S3.ObjectParams.Key := Express.key (Express.params req) |} in
      exists r st,
        Handler.run (delete_api_delete BUCKET_NAME req) w = (Handler.Normal r, st)
        /\ Handler.calls st = [S3.deleteObject_call params]
        /\ Handler.world st = snd (S3.deleteObject params w)
        /\ match fst (S3.deleteObject params w) with
           | S3.Fulfilled _ =>
               Express.statusCode r = 200
               /\ Express.body_field "success" r = Some (JS.JBool true)
               /\ Express.body_field "key" r
                  = Some (JS.JStr (Express.key (Express.params req)))
           | S3.Rejected _ => Express.statusCode r = 500
           end)
  /\ (forall (etag_of : JS.Buffer -> string) (time : Z) (BUCKET_NAME : string)
             (req : Express.Request)
             (objects : gmap string InMemory.StoredObject),
        let s3 := InMemory.client etag_of time in
        exists r st st',
          Handler.run (delete_api_delete BUCKET_NAME req) objects
          = (Handler.Normal r, st)
          /\ Express.statusCode r = 200
          /\ Express.body_field "success" r = Some (JS.JBool true)
          /\ Express.body_field "key" r
             = Some (JS.JStr (Express.key (Express.params req)))
          /\ Handler.world st = delete (Express.key (Express.params req)) objects
          /\ Handler.run (delete_api_delete BUCKET_NAME req) (Handler.world st)
             = (Handler.Normal r, st')
          /\ Handler.world st' = Handler.world st).
Proof.
  split.
  - intros W s3 BUCKET_NAME req w; unfold delete_api_delete; cbv zeta; run_handler.
    destruct (S3.deleteObject _ w) as [[ack|e] w'];
      eexists _, _; repeat (split; [reflexivity|]); cbn; auto.
  - intros etag_of time BUCKET_NAME req objects; cbv zeta.
    unfold delete_api_delete; run_handler; cbn.
    eexists _, _, _; repeat (split; [reflexivity|]).
    apply delete_delete_eq.
Qed.

Example delete_of_a_missing_key :
  fst (Handler.run (delete_api_delete (s3 := Sample.s3) "uploads"
                      (request_for "missing.txt" JS.Undefined)) ∅)
  = Handler.Normal
      (Express.json
         (JS.JObj [("success", JS.JBool true);
                   ("message", JS.JStr "File deleted successfully");
                   ("key", JS.JStr "missing.txt")])
         Express.res).
Proof. reflexivity. Qed.

(** ** The download route *)

Lemma header_safe_quote (value : string) :
  Express.header_safe (value +:+ JS.dquote) = Express.header_safe value.
Proof.
  assert (Hlen : forall (n : nat) (v : string),
             (String.length v <= n)%nat ->
             Express.header_safe (v +:+ JS.dquote) = Express.header_safe v).
  { induction n as [|n IH]; intros v Hv.
    - destruct v; [reflexivity|cbn in Hv; lia].
    - destruct v as [|c rest]; [reflexivity|].
      change (String c rest +:+ JS.dquote) with (String c (rest +:+ JS.dquote)).
      cbn [Express.header_safe]; cbn in Hv.
      destruct ((JS.char_code c =? 9)
                || ((32 <=? JS.char_code c) && (JS.char_code c <=? 126)));
        [apply IH; lia|].
      destruct ((JS.char_code c =? 194) || (JS.char_code c =? 195));
        [|reflexivity].
      destruct rest as [|c2 rest2]; [reflexivity|].
      change (String c2 rest2 +:+ JS.dquote)
        with (String c2 (rest2 +:+ JS.dquote)).
      cbv iota; cbn in Hv; rewrite IH by lia; reflexivity. }
  apply (Hlen (String.length value)); lia.
Qed.

(** The header of a download can be set exactly when the key holds only
    characters that a header may hold. *)
Lemma header_safe_content_disposition (fileKey : string) :
  Express.header_safe (content_disposition fileKey)
  = Express.header_safe fileKey.
Proof.
  unfold content_disposition.
  change (Express.header_safe ("attachment; filename=" +:+ JS.dquote
                                 +:+ fileKey +:+ JS.dquote))
    with (Express.header_safe (fileKey +:+ JS.dquote)).
  apply header_safe_quote.
Qed.

(** Every way the download route can go. *)
Lemma get_api_download_run
    {W : Type} {s3 : S3.Client W} (BUCKET_NAME : string)
    (req : Express.Request) (w : W) :
  let fileKey := Express.key (Express.params req) in
  let params :=
    {| S3.ObjectParams.Bucket := BUCKET_NAME;
       S3.ObjectParams.Key := fileKey |} in
  let failed error :=
    Express.json
      (JS.JObj [("error", JS.JStr "Failed to download file");
                ("details", JS.JStr (JS.message error))])
      (Express.status 500 Express.res) in
  Handler.run (get_api_download BUCKET_NAME req) w
  = match S3.headObject params w with
    | (S3.Rejected headError, w1) =>
        (Handler.Normal
           (if decide (JS.code headError = Some "NotFound") then
              Express.json (JS.JObj [("error", JS.JStr "File not found")])
                (Express.status 404 Express.res)
            else failed headError),
         {| Handler.world := w1;
            Handler.trace :=
              [{| Handler.call := S3.headObject_call params;
                  Handler.failure := Some headError |}] |})
    | (S3.Fulfilled _, w1) =>
        (Handler.Normal
           (if Express.header_safe fileKey then
              Express.pipe (fst (S3.getObject_createReadStream params w1))
                {| Express.statusCode := 200;
                   Express.headers :=
                     [("Content-Disposition", content_disposition fileKey);
                      ("Content-Type", "application/octet-stream")];
                   Express.body := Express.NoBody |}
            else failed (Express.ERR_INVALID_CHAR "Content-Disposition")),
         {| Handler.world := snd (S3.getObject_createReadStream params w1);
            Handler.trace :=
              [{| Handler.call := S3.headObject_call params;
                  Handler.failure := None |};
               {| Handler.call := S3.getObject_call params;
                  Handler.failure := None |}] |})
    end.
Proof.
  cbv zeta; unfold get_api_download; cbv zeta; run_handler.
  destruct (S3.headObject _ w) as [[found|headError] w1].
  - cbn [Handler.world Handler.trace].
    destruct (S3.getObject_createReadStream _ w1) as [fileStream w2].
    unfold Express.setHeader.
    change (Express.header_safe
              ("attachment; filename=" +:+ JS.dquote
                 +:+ Express.key (Express.params req) +:+ JS.dquote))
      with (Express.header_safe
              (content_disposition (Express.key (Express.params req)))).
    rewrite header_safe_content_disposition.
    destruct (Express.header_safe (Express.key (Express.params req)));
      reflexivity.
  - destruct (decide (JS.code headError = Some "NotFound")); reflexivity.
Qed.




(** ** The upload middleware *)

Section MulterFacts.

Variable at_cap : bool.

Lemma limit_reached_above (fileSize size : N) :
  (fileSize < size)%N -> multer.limit_reached at_cap fileSize size = true.
Proof.
  unfold multer.limit_reached; intros Hlt; destruct at_cap.
  - apply N.leb_le; lia.
  - apply N.ltb_lt; exact Hlt.
Qed.

Lemma limit_reached_below (fileSize size : N) :
  (size < fileSize)%N -> multer.limit_reached at_cap fileSize size = false.
Proof.
  unfold multer.limit_reached; intros Hlt; destruct at_cap.
  - apply N.leb_gt; exact Hlt.
  - apply N.ltb_ge; lia.
Qed.

(** Parts without a file name leave [req.file] as it was. *)
Lemma handle_parts_no_file (name : string) (parts : list multer.FilePart) :
  forall (filesLeft : nat) (file : option multer.File),
    existsb (fun p => negb (String.eqb (multer.part_filename p) "")) parts = false ->
    multer.handle_parts at_cap upload name filesLeft file parts = inr file.
Proof.
  induction parts as [|p rest IH]; intros filesLeft file Hnone; [reflexivity|].
  cbn [existsb] in Hnone; apply orb_false_elim in Hnone as [Hp Hrest].
  cbn [multer.handle_parts]; apply negb_false_iff in Hp; rewrite Hp.
  apply IH; exact Hrest.
Qed.

(** A file under a field other than [name] is unexpected. *)
Lemma handle_parts_other_field (name : string) (parts : list multer.FilePart) :
  forall (filesLeft : nat) (file : option multer.File),
    existsb (fun p => String.eqb (multer.part_fieldname p) name) parts = false ->
    existsb (fun p => negb (String.eqb (multer.part_filename p) "")) parts = true ->
    multer.handle_parts at_cap upload name filesLeft file parts
    = inl multer.LIMIT_UNEXPECTED_FILE.
Proof.
  induction parts as [|p rest IH]; intros filesLeft file Hfield Hfile;
    [discriminate Hfile|].
  cbn [existsb] in Hfield, Hfile; apply orb_false_elim in Hfield as [Hp Hrest].
  cbn [multer.handle_parts].
  destruct (String.eqb (multer.part_filename p) "") eqn:Hname.
  - apply IH; [exact Hrest | exact Hfile].
  - rewrite Hp; reflexivity.
Qed.

(** A file longer than the limit aborts the request, wherever it stands in
    the body. *)
Lemma handle_parts_oversize (name : string) (parts : list multer.FilePart)
    (big : multer.FilePart) :
  In big parts ->
  multer.part_filename big <> "" ->
  (cap < JS.byteLength (multer.part_data big))%N ->
  forall (filesLeft : nat) (file : option multer.File),
    exists err,
      multer.handle_parts at_cap upload name filesLeft file parts = inl err.
Proof.
  intros Hin Hnamed Hbig.
  induction parts as [|p rest IH]; intros filesLeft file; [destruct Hin|].
  cbn [multer.handle_parts].
  destruct (String.eqb_spec (multer.part_filename p) "") as [Hempty|Hfilled].
  - destruct Hin as [-> | Hin]; [contradiction|]. apply IH; exact Hin.
  - destruct (negb (String.eqb (multer.part_fieldname p) name)
              || Nat.eqb filesLeft 0); [eexists; reflexivity|].
    cbn [upload multer.fileFilter multer.limits multer.fileSize negb].
    destruct (multer.limit_reached at_cap (10 * 1024 * 1024)
                (JS.byteLength (multer.part_data p))) eqn:Hlimit;
      [eexists; reflexivity|].
    destruct Hin as [-> | Hin]; [|apply IH; exact Hin].
    change (10 * 1024 * 1024)%N with cap in Hlimit.
    rewrite (limit_reached_above _ _ Hbig) in Hlimit; discriminate Hlimit.
Qed.

(** A single file under [file], shorter than the limit, reaches the handler. *)
Lemma single_accepts_below (p : multer.FilePart) :
  multer.part_fieldname p = "file" ->
  multer.part_filename p <> "" ->
  (JS.byteLength (multer.part_data p) < cap)%N ->
  multer.single at_cap upload "file" (Some [p])
  = inr (Some (multer.memoryStorage p)).
Proof.
  intros Hfield Hnamed Hsmall; cbn [multer.single multer.handle_parts].
  destruct (String.eqb_spec (multer.part_filename p) ""); [contradiction|].
  rewrite Hfield; cbn [String.eqb Ascii.eqb Bool.eqb negb orb Nat.eqb].
  cbn [upload multer.fileFilter multer.limits multer.fileSize negb].
  change (10 * 1024 * 1024)%N with cap.
  rewrite (limit_reached_below _ _ Hsmall); reflexivity.
Qed.

End MulterFacts.

(** ** The upload route *)

(** C2, as amended.  An upload that carries a file longer than the cap of
    10 MiB is refused by the middleware: the handler does not run and the
    storage service is not called.  The size check admits every file
    shorter than the cap, and a single such file under the field [file]
    reaches the handler whole. *)
Theorem upload_size_cap
    {W : Type} {s3 : S3.Client W} (BUCKET_NAME : string) (at_cap : bool)
    (now : Z) (req : Express.Request) (w : W) :
  (forall parts big,
      Express.multipart req = Some parts ->
      In big parts ->
      multer.part_filename big <> "" ->
      (cap < JS.byteLength (multer.part_data big))%N ->
      rejected_before_handler BUCKET_NAME at_cap now req w)
  /\ (forall size : N, (size < cap)%N -> size_check_admits at_cap size)
  /\ (forall p,
        Express.multipart req = Some [p] ->
        multer.part_fieldname p = "file" ->
        multer.part_filename p <> "" ->
        (JS.byteLength (multer.part_data p) < cap)%N ->
        exists file,
          multer.single at_cap upload "file" (Express.multipart req)
          = inr (Some file)
          /\ multer.buffer file = multer.part_data p
          /\ multer.size file = JS.byteLength (multer.part_data p)).
Proof.
  repeat split.
  - intros parts big Hparts Hin Hnamed Hbig.
    destruct (handle_parts_oversize at_cap "file" parts big Hin Hnamed Hbig
                1%nat None) as [err Herr].
    exists err; unfold post_api_upload; rewrite Hparts; cbn [multer.single].
    rewrite Herr; split; reflexivity.
  - intros size Hsmall; apply limit_reached_below; exact Hsmall.
  - intros p Hparts Hfield Hnamed Hsmall; rewrite Hparts.
    rewrite (single_accepts_below at_cap p Hfield Hnamed Hsmall).
    eexists; repeat split.
Qed.

Lemma upload_size_cap_witness :
  rejected_before_handler (s3 := Sample.s3) "uploads" false 1700000000000
    (upload_of (Sample.part "file" "big.bin" 10485761)) ∅
  /\ size_check_admits false 10485759
  /\ exists file,
       multer.single false upload "file"
         (Express.multipart (upload_of (Sample.part "file" "a.txt" 5)))
       = inr (Some file)
       /\ multer.size file = 5%N.
Proof.
  split; [|split].
  - apply (proj1 (upload_size_cap (s3 := Sample.s3) "uploads" false
                    1700000000000
                    (upload_of (Sample.part "file" "big.bin" 10485761)) ∅)
             [Sample.part "file" "big.bin" 10485761]
             (Sample.part "file" "big.bin" 10485761)).
    + reflexivity.
    + left; reflexivity.
    + discriminate.
    + reflexivity.
  - apply (proj1 (proj2 (upload_size_cap (s3 := Sample.s3) "uploads" false
                           1700000000000
                           (upload_of (Sample.part "file" "a.txt" 5)) ∅))).
    reflexivity.
  - destruct (proj2 (proj2 (upload_size_cap (s3 := Sample.s3) "uploads" false
                              1700000000000
                              (upload_of (Sample.part "file" "a.txt" 5)) ∅))
                (Sample.part "file" "a.txt" 5))
      as (file & Hsingle & _ & Hsize).
    + reflexivity.
    + reflexivity.
    + discriminate.
    + reflexivity.
    + exists file; split; assumption.
Defined.

(** C2 as stated fails on a file of exactly 10 MiB, whichever way the
    parser treats that size: the file cannot be both refused and admitted. *)
Lemma size_cap_at_exactly_10_MiB :
  ~ size_cap_as_stated (s3 := Sample.s3) "uploads" true 1700000000000
      (Sample.part "file" "a.bin" 10485760) ∅
  /\ ~ size_cap_as_stated (s3 := Sample.s3) "uploads" false 1700000000000
         (Sample.part "file" "a.bin" 10485760) ∅.
Proof.
  split.
  - intros [_ Hadmit].
    assert (Hle : (JS.byteLength
                     (multer.part_data (Sample.part "file" "a.bin" 10485760))
                   <= cap)%N) by (vm_compute; discriminate).
    specialize (Hadmit Hle); vm_compute in Hadmit; discriminate Hadmit.
  - intros [Hreject _].
    assert (Hle : (cap <= JS.byteLength
                            (multer.part_data
                               (Sample.part "file" "a.bin" 10485760)))%N)
      by (vm_compute; discriminate).
    destruct (Hreject Hle) as (err & Hsingle & _).
    vm_compute in Hsingle; discriminate Hsingle.
Qed.

(** C4, as amended.  An upload that carries no file at all is answered 400
    with the storage service neither called nor changed.  An upload that
    has no [file] field never reaches the storage service either; it is
    answered 400 when it carries no file, and refused by the middleware
    when it carries one under another field. *)
Theorem upload_without_file
    {W : Type} {s3 : S3.Client W} (BUCKET_NAME : string) (at_cap : bool)
    (now : Z) (req : Express.Request) (w : W) :
  (carries_file req = false ->
   exists r,
     Handler.run (post_api_upload BUCKET_NAME at_cap now req) w
     = (Handler.Normal r, Handler.start w)
     /\ Express.statusCode r = 400
     /\ Express.body_field "error" r = Some (JS.JStr "No file provided"))
  /\ (carries_field "file" req = false ->
      exists r,
        Handler.run (post_api_upload BUCKET_NAME at_cap now req) w
        = (Handler.Normal r, Handler.start w)
        /\ if carries_file req
           then r = Express.default_error_handler multer.LIMIT_UNEXPECTED_FILE
           else Express.statusCode r = 400).
Proof.
  assert (Hnone : carries_file req = false ->
                  Handler.run (post_api_upload BUCKET_NAME at_cap now req) w
                  = (Handler.Normal
                       (Express.json
                          (JS.JObj [("error", JS.JStr "No file provided")])
                          (Express.status 400 Express.res)),
                     Handler.start w)).
  { unfold carries_file, post_api_upload, multer.single.
    destruct (Express.multipart req) as [parts|]; intros Hfile.
    - rewrite (handle_parts_no_file at_cap "file" parts 1%nat None Hfile).
      reflexivity.
    - reflexivity. }
  split.
  - intros Hfile; eexists; split; [exact (Hnone Hfile)|split; reflexivity].
  - intros Hfield; destruct (carries_file req) eqn:Hfile.
    + eexists; split; [|reflexivity].
      unfold carries_field, carries_file in Hfield, Hfile.
      unfold post_api_upload, multer.single.
      destruct (Express.multipart req) as [parts|]; [|discriminate Hfile].
      rewrite (handle_parts_other_field at_cap "file" parts 1%nat None
                 Hfield Hfile).
      reflexivity.
    + eexists; split; [exact (Hnone eq_refl)|reflexivity].
Qed.

Lemma upload_without_file_witness :
  (exists r,
      Handler.run (post_api_upload (s3 := Sample.s3) "uploads" false
                     1700000000000 (request_for "" JS.Undefined)) ∅
      = (Handler.Normal r, Handler.start ∅)
      /\ Express.statusCode r = 400
      /\ Express.body_field "error" r = Some (JS.JStr "No file provided"))
  /\ Handler.run (post_api_upload (s3 := Sample.s3) "uploads" false
                    1700000000000
                    (upload_of (Sample.part "avatar" "me.png" 5))) ∅
     = (Handler.Normal
          (Express.default_error_handler multer.LIMIT_UNEXPECTED_FILE),
        Handler.start ∅).
Proof.
  split.
  - apply (proj1 (upload_without_file (s3 := Sample.s3) "uploads" false
                    1700000000000 (request_for "" JS.Undefined) ∅)).
    reflexivity.
  - destruct (proj2 (upload_without_file (s3 := Sample.s3) "uploads" false
                       1700000000000
                       (upload_of (Sample.part "avatar" "me.png" 5)) ∅)
                eq_refl) as (r & Hrun & Hr).
    cbn in Hr; rewrite Hrun, Hr; reflexivity.
Defined.

(** C4 as stated fails for a file sent under another field: the request
    has no [file] field, and the answer is the middleware's 500, not 400. *)
Lemma upload_under_another_field :
  ~ missing_field_as_stated (s3 := Sample.s3) "uploads" false 1700000000000
      (upload_of (Sample.part "avatar" "me.png" 5)) ∅
  /\ ~ missing_field_as_stated (s3 := Sample.s3) "uploads" true 1700000000000
         (upload_of (Sample.part "avatar" "me.png" 5)) ∅.
Proof.
  split; intros Hstated; destruct (Hstated eq_refl) as (r & Hrun & Hstatus);
    vm_compute in Hrun; injection Hrun as <-; discriminate Hstatus.
Qed.

(** C6.  An upload that reaches the handler with a file makes exactly one
    storage call, the upload of the file's bytes under the key made of the
    timestamp, a hyphen and the original file name; the answer to a
    successful upload names that key.  The in-memory service then holds
    the bytes under that key, whatever it held there before. *)
Theorem upload_key_is_timestamp_and_name
    (BUCKET_NAME : string) (at_cap : bool) (now : Z)
    (req : Express.Request) (file : multer.File) :
  multer.single at_cap upload "file" (Express.multipart req) = inr (Some file) ->
  let key := JS.decimal now +:+ "-" +:+ multer.originalname file in
  let uploadParams :=
    {| S3.UploadParams.Bucket := BUCKET_NAME;
       S3.UploadParams.Key := key;
       S3.UploadParams.Body := multer.buffer file;
       S3.UploadParams.ContentType := multer.mimetype file;
       S3.UploadParams.ACL := "private" |} in
  (forall (W : Type) (s3 : S3.Client W) (w : W),
      exists r st,
        Handler.run (post_api_upload BUCKET_NAME at_cap now req) w
        = (Handler.Normal r, st)
        /\ Handler.calls st = [S3.upload_call uploadParams]
        /\ match fst (S3.upload uploadParams w) with
           | S3.Fulfilled _ =>
               Express.statusCode r = 200
               /\ Express.body_field "data" r ≫= JS.field "key"
                  = Some (JS.JStr key)
           | S3.Rejected _ => Express.statusCode r = 500
           end)
  /\ (forall (etag_of : JS.Buffer -> string) (time : Z)
             (objects : gmap string InMemory.StoredObject),
        let s3 := InMemory.client etag_of time in
        exists r st object,
          Handler.run (post_api_upload BUCKET_NAME at_cap now req) objects
          = (Handler.Normal r, st)
          /\ Express.statusCode r = 200
          /\ Handler.world st = <[key := object]> objects
          /\ InMemory.body object = multer.buffer file).
Proof.
  intros Hsingle; cbv zeta; split.
  - intros W s3 w; unfold post_api_upload; rewrite Hsingle.
    unfold post_api_upload_handler, fileKey; cbn [Express.file Express.with_file].
    run_handler.
    destruct (S3.upload _ w) as [[result|e] w'];
      eexists _, _; repeat (split; [reflexivity|]); cbn; auto.
  - intros etag_of time objects; unfold post_api_upload; rewrite Hsingle.
    unfold post_api_upload_handler, fileKey; cbn [Express.file Express.with_file].
    run_handler; cbn.
    eexists _, _, _; repeat (split; [reflexivity|]); reflexivity.
Qed.

Lemma upload_key_is_timestamp_and_name_witness :
  exists r st,
    Handler.run (post_api_upload (s3 := Sample.s3) "uploads" false
                   1700000000000 (upload_of (Sample.part "file" "a.txt" 5))) ∅
    = (Handler.Normal r, st)
    /\ Handler.calls st
       = [S3.upload_call
            {| S3.UploadParams.Bucket := "uploads";
               S3.UploadParams.Key := "1700000000000-a.txt";
               S3.UploadParams.Body := Sample.zeros 5;
               S3.UploadParams.ContentType := "application/octet-stream";
               S3.UploadParams.ACL := "private" |}]
    /\ Express.body_field "data" r ≫= JS.field "key"
       = Some (JS.JStr "1700000000000-a.txt").
Proof.
  destruct (proj1 (upload_key_is_timestamp_and_name "uploads" false
                     1700000000000 (upload_of (Sample.part "file" "a.txt" 5))
                     (multer.memoryStorage (Sample.part "file" "a.txt" 5))
                     eq_refl)
              _ Sample.s3 ∅) as (r & st & Hrun & Hcalls & Hstatus & Hkey).
  exists r, st; repeat split; assumption.
Defined.

(** ** Failures *)

Ltac settle_failure :=
  let Hrun := fresh "Hrun" in
  let Hin := fresh "Hin" in
  intros Hrun Hin; injection Hrun as <- <-;
  cbn in Hin;
  repeat match goal with
         | H : False |- _ => destruct H
         | H : _ \/ _ |- _ => destruct H as [<- | H]
         end.

(** C7, as amended.  Every handler returns.  When an awaited storage call is
    rejected, the answer is a 500 whose JSON body carries the error's
    message in [details]; the one exception is the download probe rejected
    with [NotFound], answered 404 with a fixed body that does not carry the
    message.  An upload that reaches the handler with no file is answered
    400, with no storage call. *)
Theorem storage_failures_are_reported
    {W : Type} {s3 : S3.Client W} (BUCKET_NAME : string) (at_cap : bool)
    (route : Route) (now : Z) (req : Express.Request) (w : W) :
  (exists r st,
      Handler.run (app BUCKET_NAME at_cap route now req) w = (Handler.Normal r, st))
  /\ (forall r st e,
        Handler.run (app BUCKET_NAME at_cap route now req) w
        = (Handler.Normal r, st) ->
        In e (Handler.failures st) ->
        (route = GET_download /\ JS.code e = Some "NotFound"
         /\ Express.statusCode r = 404
         /\ Express.body r
            = Express.Json (JS.JObj [("error", JS.JStr "File not found")]))
        \/ ((route <> GET_download \/ JS.code e <> Some "NotFound")
            /\ Express.statusCode r = 500
            /\ Express.body_field "details" r = Some (JS.JStr (JS.message e))))
  /\ (forall r st,
        route = POST_upload ->
        multer.single at_cap upload "file" (Express.multipart req) = inr None ->
        Handler.run (app BUCKET_NAME at_cap route now req) w
        = (Handler.Normal r, st) ->
        Express.statusCode r = 400 /\ st = Handler.start w).
Proof.
  split; [|split].
  - destruct route; cbn [app].
    + unfold post_api_upload, post_api_upload_handler.
      destruct (multer.single _ _ _ _) as [err|[file|]];
        cbn [Express.file Express.with_file]; run_handler;
        [eauto| |eauto].
      destruct (S3.upload _ w) as [[result|e] w']; eauto.
    + unfold get_api_files; cbv zeta; run_handler.
      destruct (S3.listObjectsV2 _ w) as [[result|e] w']; eauto.
    + rewrite get_api_download_run; cbv zeta.
      destruct (S3.headObject _ w) as [[found|headError] w']; eauto.
    + unfold get_api_file_url; cbv zeta.
      destruct (expiration req); run_handler; [|eauto].
      destruct (S3.getSignedUrlPromise _ _ w) as [[url|e] w']; eauto.
    + unfold delete_api_delete; cbv zeta; run_handler.
      destruct (S3.deleteObject _ w) as [[ack|e] w']; eauto.
    + unfold get_api_health; run_handler; eauto.
  - intros r st e; destruct route; cbn [app].
    + unfold post_api_upload, post_api_upload_handler.
      destruct (multer.single _ _ _ _) as [err|[file|]];
        cbn [Express.file Express.with_file]; run_handler;
        [settle_failure| |settle_failure].
      destruct (S3.upload _ w) as [[result|error] w']; settle_failure.
      right; split; [left; discriminate|split; reflexivity].
    + unfold get_api_files; cbv zeta; run_handler.
      destruct (S3.listObjectsV2 _ w) as [[result|error] w']; settle_failure.
      right; split; [left; discriminate|split; reflexivity].
    + rewrite get_api_download_run; cbv zeta.
      destruct (S3.headObject _ w) as [[found|headError] w'];
        [settle_failure|].
      destruct (decide (JS.code headError = Some "NotFound")) as [Hcode|Hcode];
        settle_failure.
      * left; repeat split; auto.
      * right; split; [right; exact Hcode|split; reflexivity].
    + unfold get_api_file_url; cbv zeta.
      destruct (expiration req); run_handler; [|settle_failure].
      destruct (S3.getSignedUrlPromise _ _ w) as [[url|error] w'];
        settle_failure.
      right; split; [left; discriminate|split; reflexivity].
    + unfold delete_api_delete; cbv zeta; run_handler.
      destruct (S3.deleteObject _ w) as [[ack|error] w']; settle_failure.
      right; split; [left; discriminate|split; reflexivity].
    + unfold get_api_health; run_handler; settle_failure.
  - intros r st -> Hsingle; cbn [app]; unfold post_api_upload.
    rewrite Hsingle; unfold post_api_upload_handler.
    cbn [Express.file Express.with_file]; run_handler.
    intros Hrun; injection Hrun as <- <-; split; reflexivity.
Qed.

Lemma storage_failures_are_reported_witness :
  exists r st,
    Handler.run (app (s3 := Rejecting.client Sample.ServiceUnavailable)
                   "uploads" false DELETE_delete 1700000000000
                   (request_for "a.txt" JS.Undefined)) tt
    = (Handler.Normal r, st)
    /\ Express.statusCode r = 500
    /\ Express.body_field "details" r
       = Some (JS.JStr "Please reduce your request rate.").
Proof.
  eexists _, _; split; [reflexivity|].
  destruct (proj1 (proj2 (storage_failures_are_reported
                            (s3 := Rejecting.client Sample.ServiceUnavailable)
                            "uploads" false DELETE_delete 1700000000000
                            (request_for "a.txt" JS.Undefined) tt))
              _ _ Sample.ServiceUnavailable eq_refl (or_introl eq_refl))
    as [(Hroute & _) | (_ & Hstatus & Hdetails)].
  - discriminate Hroute.
  - split; assumption.
Defined.

(** C7 as stated fails on the download of a missing key: the 404 body is
    the fixed text [File not found], and the message of the storage error
    is nowhere in it. *)
Lemma download_not_found_drops_message :
  ~ storage_failure_as_stated (s3 := Rejecting.client Sample.KeyNotFound)
      "uploads" false GET_download 1700000000000
      (request_for "a.txt" JS.Undefined) tt.
Proof.
  intros Hstated.
  destruct (Hstated _ _ Sample.KeyNotFound eq_refl (or_introl eq_refl))
    as (_ & j & Hbody & Hmentions).
  injection Hbody as <-; vm_compute in Hmentions; discriminate Hmentions.
Qed.

(** ** Runs against the sample services *)

(** A body that cannot be read fails on the stream, after the handler has
    returned: no response is sent, and no failure was seen by the [catch]. *)
Example download_of_an_unreadable_object :
  exists r st,
    Handler.run (get_api_download (s3 := Sample.archived) "uploads"
                   (request_for "a.txt" JS.Undefined)) tt
    = (Handler.Normal r, st)
    /\ Express.body r = Express.NotSent Sample.InvalidObjectState
    /\ Handler.failures st = [].
Proof. eexists _, _; repeat split. Qed.

Example header_of_a_key_with_a_line_feed :
  Express.setHeader "Content-Disposition"
    (content_disposition Sample.key_with_line_feed) Express.res
  = Handler.Throw (Express.ERR_INVALID_CHAR "Content-Disposition").
Proof. reflexivity. Qed.

(** X13.  Upload, then download under the key the upload was given: when
    that key holds only characters that a header may hold, the download
    is answered 200 and its stream carries the uploaded bytes, for the
    in-memory service in any state. *)
Lemma upload_then_download
    (etag_of : JS.Buffer -> string) (time : Z) (BUCKET_NAME : string)
    (at_cap : bool) (now : Z) (p : multer.FilePart)
    (objects : gmap string InMemory.StoredObject) :
  multer.part_fieldname p = "file" ->
  multer.part_filename p <> "" ->
  (JS.byteLength (multer.part_data p) < cap)%N ->
  Express.header_safe (JS.decimal now +:+ "-" +:+ multer.part_filename p)
  = true ->
  let s3 := InMemory.client etag_of time in
  let key := JS.decimal now +:+ "-" +:+ multer.part_filename p in
  exists r1 st1 r2 st2,
    Handler.run (post_api_upload BUCKET_NAME at_cap now (upload_of p)) objects
    = (Handler.Normal r1, st1)
    /\ Handler.run (get_api_download BUCKET_NAME (request_for key JS.Undefined))
         (Handler.world st1)
       = (Handler.Normal r2, st2)
    /\ Express.statusCode r2 = 200
    /\ Express.body r2 = Express.Piped (S3.Data (multer.part_data p)).
Proof.
  intros Hfield Hnamed Hsmall Hsafe; cbv zeta.
  eexists _, _, _, _; split.
  - unfold post_api_upload; cbn [Express.multipart upload_of].
    rewrite (single_accepts_below at_cap p Hfield Hnamed Hsmall).
    unfold post_api_upload_handler, fileKey;
      cbn [Express.file Express.with_file multer.originalname
           multer.memoryStorage multer.buffer multer.mimetype];
      run_handler; cbn; reflexivity.
  - cbn [Handler.world]; rewrite get_api_download_run; cbv zeta.
    cbn [Express.key Express.params request_for]; rewrite Hsafe.
    cbn [S3.headObject S3.getObject_createReadStream InMemory.client].
    unfold InMemory.probe, InMemory.read; cbn [S3.ObjectParams.Key].
    rewrite !lookup_insert_eq; cbn.
    repeat split.
Qed.

(** X14.  Delete, then download of the same key: the download is
    answered 404, for the in-memory service in any state. *)
Lemma delete_then_download
    (etag_of : JS.Buffer -> string) (time : Z) (BUCKET_NAME : string)
    (key : string) (objects : gmap string InMemory.StoredObject) :
  let s3 := InMemory.client etag_of time in
  exists r1 st1 r2 st2,
    Handler.run (delete_api_delete BUCKET_NAME (request_for key JS.Undefined))
      objects
    = (Handler.Normal r1, st1)
    /\ Handler.run (get_api_download BUCKET_NAME (request_for key JS.Undefined))
         (Handler.world st1)
       = (Handler.Normal r2, st2)
    /\ Express.statusCode r2 = 404.
Proof.
  cbv zeta; unfold delete_api_delete, get_api_download;
    cbn [Express.key Express.params request_for]; run_handler; cbn.
  eexists _, _, _, _; split; [reflexivity|]; cbn [Handler.world].
  unfold InMemory.probe; cbn; rewrite lookup_delete_eq; cbn.
  split; reflexivity.
Qed.

(** X21.  The list response is cut at 1000 entries without saying so: it
    has as many files as the bucket holds objects, up to 1000, [count] is
    that number, and no member tells whether objects were left out. *)
Theorem list_is_cut_at_1000
    (etag_of : JS.Buffer -> string) (time : Z) (BUCKET_NAME : string)
    (req : Express.Request) (objects : gmap string InMemory.StoredObject) :
  let s3 := InMemory.client etag_of time in
  exists r st files,
    Handler.run (get_api_files BUCKET_NAME req) objects = (Handler.Normal r, st)
    /\ Express.body r
       = Express.Json
           (JS.JObj [("success", JS.JBool true);
                     ("files", JS.JArr files);
                     ("count", JS.JNum (Z.of_nat (Nat.min 1000 (size objects))))])
    /\ length files = Nat.min 1000 (size objects).
Proof.
  cbv zeta; unfold get_api_files; cbv zeta; run_handler; cbn.
  assert (Hlength :
            length (map file_entry
                      (take (Z.to_nat 1000)
                         (map InMemory.summary (map_to_list objects))))
            = Nat.min 1000 (size objects)).
  { rewrite length_map, length_take, length_map, length_map_to_list.
    reflexivity. }
  eexists _, _, _; split; [reflexivity|]; split; [|exact Hlength].
  cbn; rewrite Hlength; reflexivity.
Qed.

(** ** All routes *)

Ltac destruct_calls :=
  repeat
    (cbn [Handler.world Handler.trace fst snd];
     match goal with
     | |- context [expiration ?req] =>
         destruct (expiration req) as [?number|] eqn:?Hexpiration
     | |- context [Express.header_safe ?value] =>
         destruct (Express.header_safe value) eqn:?Hsafe
     | |- context [S3.upload ?p ?w] =>
         destruct (S3.upload p w) as [[?result|?error] ?w]
     | |- context [S3.listObjectsV2 ?p ?w] =>
         destruct (S3.listObjectsV2 p w) as [[?result|?error] ?w]
     | |- context [S3.headObject ?p ?w] =>
         destruct (S3.headObject p w) as [[?found|?headError] ?w]
     | |- context [S3.getObject_createReadStream ?p ?w] =>
         destruct (S3.getObject_createReadStream p w) as [?fileStream ?w]
     | |- context [S3.getSignedUrlPromise ?o ?p ?w] =>
         destruct (S3.getSignedUrlPromise o p w) as [[?url|?error] ?w]
     | |- context [S3.deleteObject ?p ?w] =>
         destruct (S3.deleteObject p w) as [[?ack|?error] ?w]
     | |- context [decide (JS.code ?e = ?c)] =>
         destruct (decide (JS.code e = c))
     end).

(** Every way a route can go, with the response and the final state of
    the run chosen in each. *)
Ltac enter_route :=
  cbn [app]; rewrite ?get_api_download_run;
  unfold post_api_upload, post_api_upload_handler, get_api_files,
    get_api_file_url, delete_api_delete, get_api_health, fileKey;
  cbv zeta;
  try match goal with
      | |- context [multer.single ?a ?o ?n ?m] =>
          destruct (multer.single a o n m) as [?err|[?file|]] eqn:?Hsingle
      end;
  cbn [Express.file Express.with_file]; run_handler; destruct_calls;
  eexists _, _; (split; [reflexivity|]).

Ltac route_cases route := destruct route; enter_route.

(** X1.  No call is retried and nothing is attempted after a failure: a
    request makes at most two storage calls, no two of them alike, and
    every call but the last was fulfilled. *)
Theorem no_call_after_a_failure
    {W : Type} {s3 : S3.Client W} (BUCKET_NAME : string) (at_cap : bool)
    (route : Route) (now : Z) (req : Express.Request) (w : W) :
  exists r st,
    Handler.run (app BUCKET_NAME at_cap route now req) w = (Handler.Normal r, st)
    /\ (length (Handler.trace st) <= 2)%nat
    /\ NoDup (Handler.calls st)
    /\ Forall (fun ev => Handler.failure ev = None)
         (removelast (Handler.trace st)).
Proof.
  route_cases route; cbn;
    (split; [lia|]); (split; [|repeat constructor]);
    repeat (apply NoDup_cons_2;
            [rewrite ?elem_of_cons, elem_of_nil; intuition discriminate|]);
    apply NoDup_nil_2.
Qed.

(** X2.  Each route makes only the calls of its own handler: in particular
    an object is written only by the upload route and removed only by the
    delete route. *)
Theorem routes_keep_to_their_calls
    {W : Type} {s3 : S3.Client W} (BUCKET_NAME : string) (at_cap : bool)
    (route : Route) (now : Z) (req : Express.Request) (w : W) :
  exists r st,
    Handler.run (app BUCKET_NAME at_cap route now req) w = (Handler.Normal r, st)
    /\ Forall (fun c => permitted route c = true) (Handler.calls st).
Proof. route_cases route; cbn; repeat constructor. Qed.

(** X3.  Every storage call names the configured bucket, whatever the
    request says. *)
Theorem calls_name_the_configured_bucket
    {W : Type} {s3 : S3.Client W} (BUCKET_NAME : string) (at_cap : bool)
    (route : Route) (now : Z) (req : Express.Request) (w : W) :
  exists r st,
    Handler.run (app BUCKET_NAME at_cap route now req) w = (Handler.Normal r, st)
    /\ Forall (fun c => call_bucket c = BUCKET_NAME) (Handler.calls st).
Proof. route_cases route; cbn; repeat constructor. Qed.

Ltac settle := repeat split; first [reflexivity | discriminate | eauto].

Ltac pick :=
  first [ solve [settle] | left; solve [settle] | right; pick ].

(** X4.  The download, signed-URL and delete routes hand the key of the
    request to the storage service unchanged, in every call they make. *)
Theorem key_is_passed_unchanged
    {W : Type} {s3 : S3.Client W} (BUCKET_NAME : string) (at_cap : bool)
    (now : Z) (req : Express.Request) (w : W) :
  let fileKey := Express.key (Express.params req) in
  (exists r st,
      Handler.run (app BUCKET_NAME at_cap GET_download now req) w
      = (Handler.Normal r, st)
      /\ Forall (fun c => call_key c = Some fileKey) (Handler.calls st))
  /\ (exists r st,
        Handler.run (app BUCKET_NAME at_cap GET_file_url now req) w
        = (Handler.Normal r, st)
        /\ Forall (fun c => call_key c = Some fileKey) (Handler.calls st))
  /\ (exists r st,
        Handler.run (app BUCKET_NAME at_cap DELETE_delete now req) w
        = (Handler.Normal r, st)
        /\ Forall (fun c => call_key c = Some fileKey) (Handler.calls st)).
Proof.
  cbv zeta; repeat split.
  - enter_route; cbn; repeat constructor.
  - enter_route; cbn; repeat constructor.
  - enter_route; cbn; repeat constructor.
Qed.

(** A run of the application, from the run of the route. *)
Lemma server_run
    {W : Type} {s3 : S3.Client W} (BUCKET_NAME : string) (at_cap : bool)
    (route : Route) (now : Z) (incoming : Express.Incoming) (w : W) :
  Handler.run (server BUCKET_NAME at_cap route now incoming) w
  = match Express.json_body incoming with
    | Express.Refused kind err =>
        (Handler.Normal
           (outgoing route incoming
              (Express.error_page (Express.body_error_status kind) err)),
         Handler.start w)
    | _ =>
        if has_key_segment route && negb (Express.key_decodes incoming) then
          (Handler.Normal
             (outgoing route incoming (Express.error_page 400 Express.URIError)),
           Handler.start w)
        else
          match Handler.run
                  (app BUCKET_NAME at_cap route now (Express.request incoming))
                  w with
          | (Handler.Normal r, st) =>
              (Handler.Normal (outgoing route incoming r), st)
          | (Handler.Throw e, st) => (Handler.Throw e, st)
          end
    end.
Proof.
  unfold server, Handler.run, Handler.bind, Handler.ret.
  destruct (Express.json_body incoming); try reflexivity;
    destruct (has_key_segment route && negb (Express.key_decodes incoming));
    reflexivity.
Qed.

Ltac send_out incoming :=
  cbn [outgoing is_get];
  unfold Express.end_of_get, Express.is_fresh, Express.without_body,
    Express.error_page;
  cbn;
  repeat match goal with
         | |- context [Express.fresh incoming ?r] =>
             destruct (Express.fresh incoming r)
         | |- context [Express.head incoming] =>
             destruct (Express.head incoming)
         end;
  cbn.

Ltac enter_server incoming route :=
  rewrite server_run;
  destruct (Express.json_body incoming) as [ | | kind err];
  [ | | destruct kind, route; eexists _, _; (split; [reflexivity|]);
        send_out incoming; pick];
  (destruct (has_key_segment route && negb (Express.key_decodes incoming));
   [destruct route; eexists _, _; (split; [reflexivity|]);
    send_out incoming; pick|]);
  route_cases route;
  try match goal with
      | |- context [Express.pipe ?stream _] => destruct stream
      end;
  send_out incoming.

(** X5.  A request to one of the routes gets no response only on the
    download route, when the stream of the object fails.  Otherwise it is
    answered 200, 304, 400, 404, 413, 415 or 500: 200 only when no storage
    call was rejected; 304 only in place of a 200, on the list, signed-URL
    and health routes; 400, 413 and 415 only before any storage call; 404
    only by the download route; 500 never by the health route. *)
Theorem status_codes
    {W : Type} {s3 : S3.Client W} (BUCKET_NAME : string) (at_cap : bool)
    (route : Route) (now : Z) (incoming : Express.Incoming) (w : W) :
  exists r st,
    Handler.run (server BUCKET_NAME at_cap route now incoming) w
    = (Handler.Normal r, st)
    /\ match Express.body r with
       | Express.NotSent _ => route = GET_download /\ Handler.failures st = []
       | _ =>
           (Express.statusCode r = 200 /\ Handler.failures st = [])
           \/ (Express.statusCode r = 304 /\ Handler.failures st = []
               /\ (route = GET_files \/ route = GET_file_url
                   \/ route = GET_health))
           \/ (Express.statusCode r = 400 /\ Handler.trace st = [])
           \/ (Express.statusCode r = 404 /\ route = GET_download)
           \/ ((Express.statusCode r = 413 \/ Express.statusCode r = 415)
               /\ Handler.trace st = [])
           \/ (Express.statusCode r = 500 /\ route <> GET_health)
       end.
Proof. enter_server incoming route; pick. Qed.

(** X6.  A client can tell success from failure by the body alone.  A JSON
    body sent with 200 has no [error] member and, but for the health
    route, has [success: true]; a JSON body sent with any other status has
    a string [error] member and no [success] member.  A stream is sent
    only by the download route, with 200.  An error page is sent only
    before any storage call: with 500 for an upload refused by the upload
    middleware, with 400, 413 or 415 for a request refused by the body
    parser or the router.  A response goes without a body only on a route
    of GET, to a request made with HEAD or answered 304.  No response is
    sent only on the download route. *)
Theorem response_shape
    {W : Type} {s3 : S3.Client W} (BUCKET_NAME : string) (at_cap : bool)
    (route : Route) (now : Z) (incoming : Express.Incoming) (w : W) :
  exists r st,
    Handler.run (server BUCKET_NAME at_cap route now incoming) w
    = (Handler.Normal r, st)
    /\ match Express.body r with
       | Express.Json j =>
           (Express.statusCode r = 200
            /\ JS.field "error" j = None
            /\ (JS.field "success" j = Some (JS.JBool true)
                \/ route = GET_health))
           \/ (Express.statusCode r <> 200
               /\ (exists text, JS.field "error" j = Some (JS.JStr text))
               /\ JS.field "success" j = None)
       | Express.Piped _ => route = GET_download /\ Express.statusCode r = 200
       | Express.ErrorPage _ =>
           Handler.trace st = []
           /\ ((route = POST_upload /\ Express.statusCode r = 500)
               \/ Express.statusCode r = 400
               \/ Express.statusCode r = 413
               \/ Express.statusCode r = 415)
       | Express.NotSent _ => route = GET_download
       | Express.NoBody =>
           is_get route = true
           /\ (Express.statusCode r = 304 \/ Express.head incoming = true)
       end.
Proof. enter_server incoming route; pick. Qed.

(** A request that the body parser and the router let through, made with
    the method of the route and without validators, is answered as the
    route answers it. *)
Lemma server_plain
    {W : Type} {s3 : S3.Client W} (BUCKET_NAME : string) (at_cap : bool)
    (route : Route) (now : Z) (req : Express.Request) (w : W) :
  Handler.run (server BUCKET_NAME at_cap route now (plain req)) w
  = Handler.run (app BUCKET_NAME at_cap route now req) w.
Proof.
  rewrite server_run; cbn [plain Express.json_body Express.key_decodes
                             Express.request negb].
  rewrite andb_false_r.
  destruct (Handler.run (app BUCKET_NAME at_cap route now req) w)
    as [[r|e] st]; [|reflexivity].
  f_equal; f_equal; unfold outgoing, Express.end_of_get, Express.is_fresh.
  cbn [Express.fresh Express.head]; rewrite andb_false_r.
  destruct (is_get route), (Express.body r); reflexivity.
Qed.

Example health_with_a_broken_json_body :
  Handler.run
    (server (s3 := Sample.s3) "uploads" false GET_health 1700000000000
       {| Express.head := false;
          Express.fresh := fun _ => false;
          Express.json_body :=
            Express.Refused Express.entity_parse_failed Sample.SyntaxError;
          Express.key_decodes := true;
          Express.request := request_for "" JS.Undefined |})
    Sample.bucket
  = (Handler.Normal (Express.error_page 400 Sample.SyntaxError),
     Handler.start Sample.bucket).
Proof. reflexivity. Qed.

Example delete_of_an_undecodable_key :
  Handler.run
    (server (s3 := Sample.s3) "uploads" false DELETE_delete 1700000000000
       {| Express.head := false;
          Express.fresh := fun _ => false;
          Express.json_body := Express.NotJson;
          Express.key_decodes := false;
          Express.request := request_for "" JS.Undefined |})
    Sample.bucket
  = (Handler.Normal (Express.error_page 400 Express.URIError),
     Handler.start Sample.bucket).
Proof. reflexivity. Qed.

Example health_not_modified :
  fst (Handler.run
         (server (s3 := Sample.s3) "uploads" false GET_health 1700000000000
            {| Express.head := false;
               Express.fresh := fun _ => true;
               Express.json_body := Express.NotJson;
               Express.key_decodes := true;
               Express.request := request_for "" JS.Undefined |})
         Sample.bucket)
  = Handler.Normal
      {| Express.statusCode := 304;
         Express.headers := [];
         Express.body := Express.NoBody |}.
Proof. reflexivity. Qed.

(** ** What the middleware lets through *)

Section MulterInvariants.

Variable at_cap : bool.

Lemma limit_not_reached_le (fileSize size : N) :
  multer.limit_reached at_cap fileSize size = false -> (size <= fileSize)%N.
Proof.
  unfold multer.limit_reached; destruct at_cap; intros Hlimit.
  - apply N.leb_gt in Hlimit; lia.
  - apply N.ltb_ge in Hlimit; exact Hlimit.
Qed.

(** A file that comes out of [handle_parts] was there before, or is one of
    the parts: named, under the field asked for, below the limit. *)
Lemma handle_parts_accepted (name : string) (parts : list multer.FilePart) :
  forall (filesLeft : nat) (acc : option multer.File) (file : multer.File),
    multer.handle_parts at_cap upload name filesLeft acc parts
    = inr (Some file) ->
    acc = Some file
    \/ exists p,
         In p parts
         /\ file = multer.memoryStorage p
         /\ multer.part_fieldname p = name
         /\ named p = true
         /\ multer.limit_reached at_cap cap
              (JS.byteLength (multer.part_data p)) = false.
Proof.
  induction parts as [|p rest IH]; intros filesLeft acc file;
    cbn [multer.handle_parts].
  - intros Hacc; injection Hacc as ->; left; reflexivity.
  - destruct (String.eqb (multer.part_filename p) "") eqn:Hname.
    + intros Hrest; destruct (IH _ _ _ Hrest) as [Hacc|(q & Hin & Hq)];
        [left; exact Hacc|right; exists q; split; [right; exact Hin|exact Hq]].
    + destruct (String.eqb_spec (multer.part_fieldname p) name) as [Hfield|];
        cbn [negb orb]; [|discriminate].
      destruct (Nat.eqb filesLeft 0); [discriminate|].
      cbn [upload multer.fileFilter multer.limits multer.fileSize negb].
      change (10 * 1024 * 1024)%N with cap.
      destruct (multer.limit_reached at_cap cap
                  (JS.byteLength (multer.part_data p))) eqn:Hlimit;
        [discriminate|].
      intros Hrest; destruct (IH _ _ _ Hrest) as [Hacc|(q & Hin & Hq)].
      * injection Hacc as <-; right; exists p.
        unfold named; rewrite Hname; repeat split; auto; left; reflexivity.
      * right; exists q; split; [right; exact Hin|exact Hq].
Qed.

(** More files than the field has room for abort the request. *)
Lemma handle_parts_too_many (name : string) (parts : list multer.FilePart) :
  forall (filesLeft : nat) (acc : option multer.File),
    (filesLeft < length (List.filter named parts))%nat ->
    exists err,
      multer.handle_parts at_cap upload name filesLeft acc parts = inl err.
Proof.
  induction parts as [|p rest IH]; intros filesLeft acc;
    cbn [List.filter length multer.handle_parts]; [lia|].
  unfold named at 1; destruct (String.eqb (multer.part_filename p) "");
    cbn [negb length]; [apply IH|].
  intros Hmany.
  destruct (negb (String.eqb (multer.part_fieldname p) name)
            || Nat.eqb filesLeft 0) eqn:Hroom; [eexists; reflexivity|].
  apply orb_false_elim in Hroom as [_ Hleft]; apply Nat.eqb_neq in Hleft.
  cbn [upload multer.fileFilter negb].
  destruct (multer.limit_reached at_cap _ _); [eexists; reflexivity|].
  apply IH; lia.
Qed.

End MulterInvariants.

Lemma single_file_bound
    (at_cap : bool) (req : Express.Request) (file : multer.File) :
  multer.single at_cap upload "file" (Express.multipart req) = inr (Some file) ->
  (JS.byteLength (multer.buffer file) <= 10 * 1024 * 1024)%N.
Proof.
  unfold multer.single; destruct (Express.multipart req) as [parts|];
    [|discriminate].
  intros Hsingle.
  destruct (handle_parts_accepted at_cap "file" parts _ _ _ Hsingle)
    as [Hacc|(p & _ & -> & _ & _ & Hlimit)]; [discriminate|].
  apply (limit_not_reached_le at_cap); exact Hlimit.
Qed.

(** X7.  Whenever the upload middleware sets [req.file], the file is one
    of the parts of the request: sent under the field [file], with a file
    name, of at most 10 MiB, its bytes untouched, and [size] is the length
    of its buffer. *)
Theorem file_handed_to_the_handler
    (at_cap : bool) (req : Express.Request) (file : multer.File) :
  multer.single at_cap upload "file" (Express.multipart req) = inr (Some file) ->
  exists parts p,
    Express.multipart req = Some parts
    /\ In p parts
    /\ multer.fieldname file = "file"
    /\ multer.originalname file = multer.part_filename p
    /\ multer.originalname file <> ""
    /\ multer.mimetype file = multer.part_mimetype p
    /\ multer.buffer file = multer.part_data p
    /\ multer.size file = JS.byteLength (multer.buffer file)
    /\ (multer.size file <= 10 * 1024 * 1024)%N.
Proof.
  unfold multer.single; destruct (Express.multipart req) as [parts|];
    [|discriminate].
  intros Hsingle.
  destruct (handle_parts_accepted at_cap "file" parts _ _ _ Hsingle)
    as [Hacc|(p & Hin & -> & Hfield & Hnamed & Hlimit)]; [discriminate|].
  exists parts, p; repeat split; auto.
  - unfold named in Hnamed; cbn [multer.originalname multer.memoryStorage].
    destruct (String.eqb_spec (multer.part_filename p) ""); [discriminate|auto].
  - apply (limit_not_reached_le at_cap); exact Hlimit.
Qed.

Lemma file_handed_to_the_handler_witness :
  exists parts p,
    Express.multipart (upload_of (Sample.part "file" "a.txt" 5)) = Some parts
    /\ In p parts
    /\ multer.originalname (multer.memoryStorage (Sample.part "file" "a.txt" 5))
       = multer.part_filename p.
Proof.
  destruct (file_handed_to_the_handler false
              (upload_of (Sample.part "file" "a.txt" 5))
              (multer.memoryStorage (Sample.part "file" "a.txt" 5)) eq_refl)
    as (parts & p & Hparts & Hin & _ & Hname & _).
  exists parts, p; repeat split; assumption.
Defined.

(** X8.  No upload sends the storage service more than 10 MiB: the body of
    every call the upload route makes is within the cap. *)
Theorem upload_body_within_cap
    {W : Type} {s3 : S3.Client W} (BUCKET_NAME : string) (at_cap : bool)
    (now : Z) (req : Express.Request) (w : W) :
  exists r st,
    Handler.run (post_api_upload BUCKET_NAME at_cap now req) w
    = (Handler.Normal r, st)
    /\ Forall (fun c => (call_body_length c <= 10 * 1024 * 1024)%N)
         (Handler.calls st).
Proof.
  unfold post_api_upload, post_api_upload_handler, fileKey.
  destruct (multer.single _ _ _ _) as [err|[file|]] eqn:Hsingle;
    cbn [Express.file Express.with_file]; run_handler; destruct_calls;
    eexists _, _; (split; [reflexivity|]); cbn; repeat constructor.
  all: exact (single_file_bound at_cap req file Hsingle).
Qed.

(** X9.  An upload takes one file.  A request with two or more files is
    refused whole by the middleware, whatever their fields and sizes: the
    handler does not run and not even the first file is stored. *)
Theorem upload_of_several_files_is_refused
    {W : Type} {s3 : S3.Client W} (BUCKET_NAME : string) (at_cap : bool)
    (now : Z) (req : Express.Request) (w : W) (parts : list multer.FilePart) :
  Express.multipart req = Some parts ->
  (2 <= length (List.filter named parts))%nat ->
  rejected_before_handler BUCKET_NAME at_cap now req w.
Proof.
  intros Hparts Hmany.
  destruct (handle_parts_too_many at_cap "file" parts 1%nat None)
    as [err Herr]; [lia|].
  exists err; unfold post_api_upload; rewrite Hparts; cbn [multer.single].
  rewrite Herr; split; reflexivity.
Qed.

Lemma upload_of_several_files_is_refused_witness :
  rejected_before_handler (s3 := Sample.s3) "uploads" false 1700000000000
    {| Express.multipart :=
         Some [Sample.part "file" "a.txt" 5; Sample.part "file" "b.txt" 7];
       Express.file := None;
       Express.params := {| Express.key := "" |};
       Express.query := {| Express.expires := JS.Undefined |} |} ∅.
Proof.
  apply (upload_of_several_files_is_refused (s3 := Sample.s3) "uploads" false
           1700000000000 _ ∅
           [Sample.part "file" "a.txt" 5; Sample.part "file" "b.txt" 7]).
  - reflexivity.
  - cbn; lia.
Defined.

(** ** The download route *)



(** X11.  When the probe is rejected, with whatever error, the download
    route stops there: the object is never read, nothing is streamed, no
    attachment header is set, and the answer is a JSON error. *)
Theorem download_stops_at_a_rejected_probe
    {W : Type} {s3 : S3.Client W} (BUCKET_NAME : string)
    (req : Express.Request) (w w1 : W) (headError : JS.Error) :
  let params :=
    {| S3.ObjectParams.Bucket := BUCKET_NAME;
       S3.ObjectParams.Key := Express.key (Express.params req) |} in
  S3.headObject params w = (S3.Rejected headError, w1) ->
  exists r st text,
    Handler.run (get_api_download BUCKET_NAME req) w = (Handler.Normal r, st)
    /\ Handler.calls st = [S3.headObject_call params]
    /\ Handler.world st = w1
    /\ Express.headers r = []
    /\ Express.body_field "error" r = Some (JS.JStr text)
    /\ (Express.statusCode r = 404 \/ Express.statusCode r = 500).
Proof.
  cbv zeta; intros Hhead.
  rewrite get_api_download_run; cbv zeta; rewrite Hhead.
  destruct (decide (JS.code headError = Some "NotFound"));
    eexists _, _, _; repeat split; auto.
Qed.

Lemma download_stops_at_a_rejected_probe_witness :
  exists r st,
    Handler.run (get_api_download
                   (s3 := Rejecting.client Sample.ServiceUnavailable)
                   "uploads" (request_for "a.txt" JS.Undefined)) tt
    = (Handler.Normal r, st)
    /\ Handler.calls st
       = [S3.headObject_call
            {| S3.ObjectParams.Bucket := "uploads";
               S3.ObjectParams.Key := "a.txt" |}].
Proof.
  destruct (download_stops_at_a_rejected_probe
              (s3 := Rejecting.client Sample.ServiceUnavailable)
              "uploads" (request_for "a.txt" JS.Undefined) tt tt
              Sample.ServiceUnavailable eq_refl)
    as (r & st & text & Hrun & Hcalls & _).
  exists r, st; split; assumption.
Defined.

(** ** Object keys *)

Lemma digits_then_hyphen_inj (d1 : Decimal.uint) :
  forall (d2 : Decimal.uint) (s1 s2 : string),
    NilEmpty.string_of_uint d1 +:+ String "-" s1
    = NilEmpty.string_of_uint d2 +:+ String "-" s2 ->
    d1 = d2 /\ s1 = s2.
Proof.
  induction d1 as [|d1 IH|d1 IH|d1 IH|d1 IH|d1 IH|d1 IH|d1 IH|d1 IH|d1 IH|d1 IH];
    intros d2 s1 s2; destruct d2;
    cbn [NilEmpty.string_of_uint String.append]; intros Heq;
    try discriminate Heq;
    injection Heq as Heq;
    [subst; split; reflexivity
    |destruct (IH _ _ _ Heq) as [-> ->]; split; reflexivity ..].
Qed.

(** The digits of [decimal n], without the sign. *)
Lemma decimal_digits (n : Z) :
  exists d,
    d <> Decimal.Nil
    /\ Z.to_int n = (if n <? 0 then Decimal.Neg d else Decimal.Pos d)
    /\ JS.decimal n
       = (if n <? 0 then String "-" (NilEmpty.string_of_uint d)
          else NilEmpty.string_of_uint d).
Proof.
  destruct n as [|p|p].
  - exists (Decimal.D0 Decimal.Nil); repeat split; discriminate.
  - exists (Pos.to_uint p); split; [apply DecimalPos.Unsigned.to_uint_nonnil|].
    split; [reflexivity|apply JSFacts.string_of_to_uint].
  - exists (Pos.to_uint p); split; [apply DecimalPos.Unsigned.to_uint_nonnil|].
    split; [reflexivity|].
    unfold JS.decimal; cbn [Z.to_int NilZero.string_of_int].
    rewrite JSFacts.string_of_to_uint; reflexivity.
Qed.

Lemma decimal_then_hyphen_inj (n1 n2 : Z) (s1 s2 : string) :
  JS.decimal n1 +:+ String "-" s1 = JS.decimal n2 +:+ String "-" s2 ->
  n1 = n2 /\ s1 = s2.
Proof.
  destruct (decimal_digits n1) as (d1 & Hd1 & Hint1 & ->).
  destruct (decimal_digits n2) as (d2 & Hd2 & Hint2 & ->).
  assert (Hfirst : forall d s t, d <> Decimal.Nil ->
                     NilEmpty.string_of_uint d +:+ s <> String "-" t).
  { intros d s t Hd; destruct d; [congruence|..];
      cbn [NilEmpty.string_of_uint String.append]; discriminate. }
  destruct (n1 <? 0) eqn:Hs1, (n2 <? 0) eqn:Hs2;
    cbn [String.append]; intros Heq.
  - injection Heq as Heq.
    destruct (digits_then_hyphen_inj _ _ _ _ Heq) as [<- <-].
    split; [|reflexivity].
    apply DecimalZ.to_int_inj; congruence.
  - symmetry in Heq; destruct (Hfirst _ _ _ Hd2 Heq).
  - destruct (Hfirst _ _ _ Hd1 Heq).
  - destruct (digits_then_hyphen_inj _ _ _ _ Heq) as [<- <-].
    split; [|reflexivity].
    apply DecimalZ.to_int_inj; congruence.
Qed.

(** X12.  Two uploads are given the same key only when they have the same
    timestamp and the same original file name. *)
Theorem fileKey_injective (now1 now2 : Z) (file1 file2 : multer.File) :
  fileKey now1 file1 = fileKey now2 file2 ->
  now1 = now2 /\ multer.originalname file1 = multer.originalname file2.
Proof. unfold fileKey; apply decimal_then_hyphen_inj. Qed.

Lemma fileKey_injective_witness :
  1700000000000 = 1700000000000
  /\ multer.originalname (multer.memoryStorage (Sample.part "file" "a.txt" 5))
     = multer.originalname (multer.memoryStorage (Sample.part "file" "a.txt" 9)).
Proof.
  apply (fileKey_injective 1700000000000 1700000000000
           (multer.memoryStorage (Sample.part "file" "a.txt" 5))
           (multer.memoryStorage (Sample.part "file" "a.txt" 9))).
  reflexivity.
Defined.

(** ** Requests in sequence, against the in-memory service *)

Lemma upload_then_download_witness :
  exists r1 st1 r2 st2,
    Handler.run (post_api_upload (s3 := Sample.s3) "uploads" false
                   1700000000000 (upload_of (Sample.part "file" "a.txt" 5))) ∅
    = (Handler.Normal r1, st1)
    /\ Handler.run (get_api_download (s3 := Sample.s3) "uploads"
                      (request_for "1700000000000-a.txt" JS.Undefined))
         (Handler.world st1)
       = (Handler.Normal r2, st2)
    /\ Express.statusCode r2 = 200
    /\ Express.body r2 = Express.Piped (S3.Data (Sample.zeros 5)).
Proof.
  apply (upload_then_download (fun _ => "9b2cf535f27731c974343645a3985328")
           1700000000000 "uploads" false 1700000000000
           (Sample.part "file" "a.txt" 5) ∅).
  - reflexivity.
  - discriminate.
  - reflexivity.
  - reflexivity.
Defined.

(** X15.  Two uploads in the same millisecond under the same file name
    collide: both are answered 200 with the same key, and the bucket ends
    up as if only the second had been made, the bytes of the first gone. *)
Theorem same_key_uploads_overwrite
    (etag_of : JS.Buffer -> string) (time : Z) (BUCKET_NAME : string)
    (at_cap : bool) (now : Z) (p1 p2 : multer.FilePart)
    (objects : gmap string InMemory.StoredObject) :
  multer.part_fieldname p1 = "file" ->
  multer.part_fieldname p2 = "file" ->
  multer.part_filename p1 <> "" ->
  multer.part_filename p2 = multer.part_filename p1 ->
  (JS.byteLength (multer.part_data p1) < cap)%N ->
  (JS.byteLength (multer.part_data p2) < cap)%N ->
  let s3 := InMemory.client etag_of time in
  let key := JS.decimal now +:+ "-" +:+ multer.part_filename p1 in
  exists r1 st1 r2 st2 st2',
    Handler.run (post_api_upload BUCKET_NAME at_cap now (upload_of p1)) objects
    = (Handler.Normal r1, st1)
    /\ Handler.run (post_api_upload BUCKET_NAME at_cap now (upload_of p2))
         (Handler.world st1)
       = (Handler.Normal r2, st2)
    /\ Express.statusCode r1 = 200
    /\ Express.statusCode r2 = 200
    /\ Express.body_field "data" r1 ≫= JS.field "key" = Some (JS.JStr key)
    /\ Express.body_field "data" r2 ≫= JS.field "key" = Some (JS.JStr key)
    /\ InMemory.body <$> Handler.world st2 !! key = Some (multer.part_data p2)
    /\ Handler.run (post_api_upload BUCKET_NAME at_cap now (upload_of p2)) objects
       = (Handler.Normal r2, st2')
    /\ Handler.world st2 = Handler.world st2'.
Proof.
  intros Hfield1 Hfield2 Hnamed1 Hname2 Hsmall1 Hsmall2; cbv zeta.
  assert (Hnamed2 : multer.part_filename p2 <> "") by (rewrite Hname2; exact Hnamed1).
  unfold post_api_upload; cbn [Express.multipart upload_of].
  rewrite (single_accepts_below at_cap p1 Hfield1 Hnamed1 Hsmall1).
  rewrite (single_accepts_below at_cap p2 Hfield2 Hnamed2 Hsmall2).
  unfold post_api_upload_handler, fileKey;
    cbn [Express.file Express.with_file multer.originalname multer.memoryStorage];
    run_handler; cbn.
  rewrite Hname2.
  eexists _, _, _, _, _; repeat (split; [reflexivity|]).
  split; [|split; [reflexivity|]]; cbn [Handler.world].
  - rewrite lookup_insert_eq; reflexivity.
  - apply insert_insert_eq.
Qed.

Lemma same_key_uploads_overwrite_witness :
  exists r1 st1 r2 st2,
    Handler.run (post_api_upload (s3 := Sample.s3) "uploads" false
                   1700000000000 (upload_of (Sample.part "file" "a.txt" 5))) ∅
    = (Handler.Normal r1, st1)
    /\ Handler.run (post_api_upload (s3 := Sample.s3) "uploads" false
                      1700000000000 (upload_of (Sample.part "file" "a.txt" 9)))
         (Handler.world st1)
       = (Handler.Normal r2, st2)
    /\ InMemory.body <$> Handler.world st2 !! "1700000000000-a.txt"
       = Some (Sample.zeros 9).
Proof.
  destruct (same_key_uploads_overwrite
              (fun _ => "9b2cf535f27731c974343645a3985328") 1700000000000
              "uploads" false 1700000000000
              (Sample.part "file" "a.txt" 5) (Sample.part "file" "a.txt" 9) ∅)
    as (r1 & st1 & r2 & st2 & st2' & Hrun1 & Hrun2 & _ & _ & _ & _ & Hbody & _);
    [reflexivity | reflexivity | discriminate | reflexivity
    | reflexivity | reflexivity |].
  exists r1, st1, r2, st2; repeat split; assumption.
Defined.

(** X16.  Upload, then list: when the bucket held fewer than 1000 objects,
    the list response has an entry for the key of the upload, with the
    size of the uploaded file. *)
Theorem upload_then_list
    (etag_of : JS.Buffer -> string) (time : Z) (BUCKET_NAME : string)
    (at_cap : bool) (now : Z) (p : multer.FilePart) (req : Express.Request)
    (objects : gmap string InMemory.StoredObject) :
  multer.part_fieldname p = "file" ->
  multer.part_filename p <> "" ->
  (JS.byteLength (multer.part_data p) < cap)%N ->
  (size objects < 1000)%nat ->
  let s3 := InMemory.client etag_of time in
  let key := JS.decimal now +:+ "-" +:+ multer.part_filename p in
  exists r1 st1 r2 st2 files,
    Handler.run (post_api_upload BUCKET_NAME at_cap now (upload_of p)) objects
    = (Handler.Normal r1, st1)
    /\ Handler.run (get_api_files BUCKET_NAME req) (Handler.world st1)
       = (Handler.Normal r2, st2)
    /\ Express.body_field "files" r2 = Some (JS.JArr files)
    /\ In (JS.JObj
             [("key", JS.JStr key);
              ("lastModified", JS.JDate time);
              ("size", JS.JNum (Z.of_N (JS.byteLength (multer.part_data p))));
              ("etag", JS.JStr (etag_of (multer.part_data p)))])
         files.
Proof.
  intros Hfield Hnamed Hsmall Hroom; cbv zeta.
  unfold post_api_upload; cbn [Express.multipart upload_of].
  rewrite (single_accepts_below at_cap p Hfield Hnamed Hsmall).
  unfold post_api_upload_handler, fileKey, get_api_files;
    cbn [Express.file Express.with_file multer.originalname multer.memoryStorage];
    cbv zeta; run_handler; cbn.
  eexists _, _, _, _, _; repeat (split; [reflexivity|]).
  set (key := JS.decimal now +:+ "-" +:+ multer.part_filename p).
  set (object := {| InMemory.body := multer.part_data p;
                    InMemory.contentType := multer.part_mimetype p;
                    InMemory.acl := "private";
                    InMemory.lastModified := time;
                    InMemory.etag := etag_of (multer.part_data p) |}).
  rewrite take_ge.
  - apply (in_map (file_entry) _ (InMemory.summary (key, object))).
    apply (in_map InMemory.summary _ (key, object)).
    apply list_elem_of_In, elem_of_map_to_list, lookup_insert_eq.
  - rewrite length_map, length_map_to_list.
    pose proof (map_size_insert key object objects) as Hsize.
    cbn [Handler.world]; destruct (objects !! key); unfold id in Hsize; lia.
Qed.

Lemma upload_then_list_witness :
  exists r1 st1 r2 st2 files,
    Handler.run (post_api_upload (s3 := Sample.s3) "uploads" false
                   1700000000000 (upload_of (Sample.part "file" "a.txt" 5))) ∅
    = (Handler.Normal r1, st1)
    /\ Handler.run (get_api_files (s3 := Sample.s3) "uploads"
                      (request_for "" JS.Undefined)) (Handler.world st1)
       = (Handler.Normal r2, st2)
    /\ Express.body_field "files" r2 = Some (JS.JArr files)
    /\ In (JS.JObj
             [("key", JS.JStr "1700000000000-a.txt");
              ("lastModified", JS.JDate 1700000000000);
              ("size", JS.JNum 5);
              ("etag", JS.JStr "9b2cf535f27731c974343645a3985328")])
         files.
Proof.
  apply (upload_then_list (fun _ => "9b2cf535f27731c974343645a3985328")
           1700000000000 "uploads" false 1700000000000
           (Sample.part "file" "a.txt" 5) (request_for "" JS.Undefined) ∅).
  - reflexivity.
  - discriminate.
  - reflexivity.
  - rewrite map_size_empty; lia.
Defined.

(** X17.  Delete, then list: no entry of the list response has the deleted
    key. *)
Theorem delete_then_list
    (etag_of : JS.Buffer -> string) (time : Z) (BUCKET_NAME : string)
    (key : string) (req : Express.Request)
    (objects : gmap string InMemory.StoredObject) :
  let s3 := InMemory.client etag_of time in
  exists r1 st1 r2 st2 files,
    Handler.run (delete_api_delete BUCKET_NAME (request_for key JS.Undefined))
      objects
    = (Handler.Normal r1, st1)
    /\ Handler.run (get_api_files BUCKET_NAME req) (Handler.world st1)
       = (Handler.Normal r2, st2)
    /\ Express.body_field "files" r2 = Some (JS.JArr files)
    /\ Forall (fun entry => JS.field "key" entry <> Some (JS.JStr key)) files.
Proof.
  cbv zeta; unfold delete_api_delete, get_api_files;
    cbn [Express.key Express.params request_for]; cbv zeta; run_handler; cbn.
  eexists _, _, _, _, _; repeat (split; [reflexivity|]).
  apply Forall_forall; intros entry Hin.
  apply list_elem_of_In, in_map_iff in Hin as (object & <- & Hin).
  apply list_elem_of_In, elem_of_take in Hin as (i & Hin & _).
  apply list_elem_of_lookup_2, list_elem_of_In, in_map_iff in Hin
    as ([k o] & <- & Hin).
  apply list_elem_of_In, elem_of_map_to_list in Hin.
  cbn; intros Heq; injection Heq as ->.
  cbn [Handler.world] in Hin; rewrite lookup_delete_eq in Hin.
  discriminate Hin.
Qed.

(** ** The expiry of signed URLs *)

Module ExpiryFacts.
Import JS.

(** A positive number is printed without a leading zero. *)
Lemma to_uint_no_leading_zero (p : positive) (d : Decimal.uint) :
  Pos.to_uint p <> Decimal.D0 d.
Proof.
  intros Hzero.
  assert (Hnorm : Decimal.unorm (Pos.to_uint p) = Pos.to_uint p).
  { rewrite <- (DecimalPos.Unsigned.to_of (Pos.to_uint p)).
    rewrite DecimalPos.Unsigned.of_to; reflexivity. }
  assert (Hhead : forall u v, Decimal.nzhead u <> Decimal.D0 v).
  { induction u; cbn [Decimal.nzhead]; intros v; try discriminate; apply IHu. }
  assert (Hd : forall u v, Decimal.unorm u = Decimal.D0 v -> v = Decimal.Nil).
  { intros u v; unfold Decimal.unorm.
    destruct (Decimal.nzhead u) eqn:Hu; intros Hv; try discriminate Hv;
      [injection Hv as <-; reflexivity|destruct (Hhead u _ Hu)]. }
  rewrite Hzero in Hnorm; apply Hd in Hnorm; subst d.
  exact (DecimalPos.Unsigned.to_uint_nonzero p Hzero).
Qed.

Lemma digits_prefix_append (d : Decimal.uint) (junk : string) :
  starts_with_digit junk = false ->
  digits_prefix 10 (NilEmpty.string_of_uint d +:+ junk)
  = digits_prefix 10 (NilEmpty.string_of_uint d).
Proof.
  intros Hjunk; induction d;
    cbn [NilEmpty.string_of_uint];
    try change (String ?c ?s +:+ junk) with (String c (s +:+ junk));
    [|erewrite !JSFacts.digits_prefix_cons by (vm_compute; reflexivity);
      f_equal; exact IHd ..].
  destruct junk as [|c rest]; [reflexivity|].
  change (digits_prefix 10 (String c rest) = []).
  cbn [digits_prefix starts_with_digit] in *.
  destruct (digit_value c); [rewrite Hjunk|]; reflexivity.
Qed.

Lemma parse_head_append (d : Decimal.uint) (junk : string) :
  d <> Decimal.Nil -> (forall d', d <> Decimal.D0 d') ->
  strip_sign (trim_start (NilEmpty.string_of_uint d +:+ junk))
  = (false, NilEmpty.string_of_uint d +:+ junk)
  /\ strip_hex_prefix (NilEmpty.string_of_uint d +:+ junk)
     = (10, NilEmpty.string_of_uint d +:+ junk).
Proof.
  intros Hnil Hzero; destruct d; try (split; reflexivity);
    [congruence|destruct (Hzero d eq_refl)].
Qed.

(** Text after the digits of a nonzero number is not read. *)
Lemma parseInt_ignores_the_rest (n : Z) (junk : string) :
  n <> 0 -> starts_with_digit junk = false ->
  parse_integer (decimal n +:+ junk) = parse_integer (decimal n).
Proof.
  intros Hn Hjunk; destruct n as [|p|p]; [contradiction|..].
  - rewrite JSFacts.parseInt_decimal_pos.
    unfold parse_integer, decimal; cbn [Z.to_int NilZero.string_of_int].
    rewrite JSFacts.string_of_to_uint.
    destruct (parse_head_append (Pos.to_uint p) junk
                (DecimalPos.Unsigned.to_uint_nonnil p)
                (to_uint_no_leading_zero p)) as [-> ->].
    rewrite digits_prefix_append by exact Hjunk.
    apply (JSFacts.parse_digits_of_positive false).
  - rewrite JSFacts.parseInt_decimal_neg.
    unfold parse_integer, decimal; cbn [Z.to_int NilZero.string_of_int].
    rewrite JSFacts.string_of_to_uint.
    change (String "-" ?s +:+ junk) with (String "-" (s +:+ junk)).
    change (trim_start (String "-" ?s)) with (String "-" s).
    cbn [strip_sign].
    destruct (parse_head_append (Pos.to_uint p) junk
                (DecimalPos.Unsigned.to_uint_nonnil p)
                (to_uint_no_leading_zero p)) as [_ ->].
    rewrite digits_prefix_append by exact Hjunk.
    apply (JSFacts.parse_digits_of_positive true).
Qed.

Lemma append_empty (s : string) : s +:+ "" = s.
Proof.
  induction s as [|c s IH]; [reflexivity|].
  change (String c s +:+ "") with (String c (s +:+ "")).
  rewrite IH; reflexivity.
Qed.

(** An array prints as its first element, then a comma if more follow;
    it cannot be printed when the elements that follow cannot. *)
Lemma ToString_array (s : string) (rest : list Value) :
  match ToString (Arr rest) with
  | Some _ =>
      exists junk,
        ToString (Arr (Str s :: rest)) = Some (s +:+ junk)
        /\ starts_with_digit junk = false
  | None => ToString (Arr (Str s :: rest)) = None
  end.
Proof.
  destruct rest as [|v rest].
  - exists ""; split; [|reflexivity].
    rewrite append_empty; reflexivity.
  - change (ToString (Arr (Str s :: v :: rest)))
      with (match ToString (Arr (v :: rest)) with
            | Some t => Some (s +:+ "," +:+ t)
            | None => None
            end).
    destruct (ToString (Arr (v :: rest))) as [t|]; [|reflexivity].
    exists ("," +:+ t); split; reflexivity.
Qed.

(** The expiry of a request whose [expires] prints as a nonzero integer
    followed by something else than a digit. *)
Lemma expiration_of_prefix (req : Express.Request) (n : Z) (junk : string) :
  n <> 0 -> - 2 ^ 53 < n < 2 ^ 53 -> starts_with_digit junk = false ->
  ToString (Express.expires (Express.query req)) = Some (decimal n +:+ junk) ->
  expiration req = Some (Int n).
Proof.
  intros Hn Hrange Hjunk Hq.
  unfold expiration, parseInt; rewrite Hq; cbn [option_map].
  rewrite (parseInt_ignores_the_rest n junk Hn Hjunk).
  rewrite JSFacts.parseInt_decimal by exact Hrange.
  unfold logical_or; cbn [ToBoolean].
  destruct (Z.eqb_spec n 0); [contradiction|reflexivity].
Qed.

End ExpiryFacts.

(** X18.  The expiry handed to the storage service is never [NaN] and
    never zero, whatever the query holds.  Either [expires] cannot be
    converted to a string, and the route answers 500 without a call, or
    the one call made carries an expiry that is a number other than zero. *)
Theorem file_url_expiry_is_never_zero
    {W : Type} {s3 : S3.Client W} (BUCKET_NAME : string)
    (req : Express.Request) (w : W) :
  match JS.ToString (Express.expires (Express.query req)) with
  | None => signed_url_refused BUCKET_NAME req w
  | Some _ =>
      exists E,
        signed_url_expiry BUCKET_NAME req w E
        /\ E <> JS.NaN /\ E <> JS.Int 0 /\ E <> JS.NegZero
  end.
Proof.
  destruct (JS.ToString (Express.expires (Express.query req)))
    as [text|] eqn:Htext.
  - exists (JS.logical_or (JS.parse_integer text) (JS.Int 3600)); split.
    + apply get_api_file_url_expiration.
      unfold expiration, JS.parseInt; rewrite Htext; reflexivity.
    + unfold JS.logical_or.
      destruct (JS.parse_integer text) as [ | neg | | z ];
        cbn [JS.ToBoolean]; try (repeat split; discriminate).
      destruct (Z.eqb_spec z 0) as [->|Hz]; cbn [negb];
        repeat split; congruence.
  - apply get_api_file_url_refused.
    unfold expiration, JS.parseInt; rewrite Htext; reflexivity.
Qed.

(** X19.  Text that follows the digits of [expires] is not read: a nonzero
    integer followed by anything that does not begin with a digit (a unit,
    a decimal point, an exponent) gives that integer as the expiry. *)
Theorem file_url_expiry_ignores_text_after_the_number
    {W : Type} {s3 : S3.Client W} (BUCKET_NAME : string)
    (req : Express.Request) (w : W) (n : Z) (rest : string) :
  n <> 0 -> - 2 ^ 53 < n < 2 ^ 53 ->
  starts_with_digit rest = false ->
  Express.expires (Express.query req) = JS.Str (JS.decimal n +:+ rest) ->
  signed_url_expiry BUCKET_NAME req w (JS.Int n).
Proof.
  intros Hn Hrange Hrest Hq.
  apply get_api_file_url_expiration.
  apply (ExpiryFacts.expiration_of_prefix req n rest Hn Hrange Hrest).
  rewrite Hq; reflexivity.
Qed.

Lemma file_url_expiry_ignores_text_after_the_number_witness :
  signed_url_expiry (s3 := Sample.s3) "uploads"
    (request_for "a.txt" (JS.Str "90.5 seconds")) ∅ (JS.Int 90).
Proof.
  apply (file_url_expiry_ignores_text_after_the_number (s3 := Sample.s3)
           "uploads" (request_for "a.txt" (JS.Str "90.5 seconds")) ∅
           90 ".5 seconds").
  - lia.
  - lia.
  - reflexivity.
  - reflexivity.
Defined.

(** X20.  When [expires] is given more than once, so that the query holds
    an array, the first value decides as long as the other values can be
    converted to strings: a nonzero integer there is the expiry, whatever
    the other values are.  When one of the other values cannot be
    converted, the route answers 500 without a call. *)
Theorem file_url_expiry_of_a_repeated_parameter
    {W : Type} {s3 : S3.Client W} (BUCKET_NAME : string)
    (req : Express.Request) (w : W) (n : Z) (others : list JS.Value) :
  n <> 0 -> - 2 ^ 53 < n < 2 ^ 53 ->
  Express.expires (Express.query req)
  = JS.Arr (JS.Str (JS.decimal n) :: others) ->
  match JS.ToString (JS.Arr others) with
  | Some _ => signed_url_expiry BUCKET_NAME req w (JS.Int n)
  | None => signed_url_refused BUCKET_NAME req w
  end.
Proof.
  intros Hn Hrange Hq.
  pose proof (ExpiryFacts.ToString_array (JS.decimal n) others) as Hprint.
  destruct (JS.ToString (JS.Arr others)) as [text|].
  - destruct Hprint as (junk & Hstring & Hjunk).
    apply get_api_file_url_expiration.
    apply (ExpiryFacts.expiration_of_prefix req n junk Hn Hrange Hjunk).
    rewrite Hq; exact Hstring.
  - apply get_api_file_url_refused.
    unfold expiration, JS.parseInt; rewrite Hq, Hprint; reflexivity.
Qed.

Lemma file_url_expiry_of_a_repeated_parameter_witness :
  signed_url_expiry (s3 := Sample.s3) "uploads"
    (request_for "a.txt" (JS.Arr [JS.Str "60"; JS.Str "86400"])) ∅ (JS.Int 60).
Proof.
  apply (file_url_expiry_of_a_repeated_parameter (s3 := Sample.s3)
           "uploads"
           (request_for "a.txt" (JS.Arr [JS.Str "60"; JS.Str "86400"])) ∅
           60 [JS.Str "86400"]).
  - lia.
  - lia.
  - reflexivity.
Defined.
